(** * Index generators: a shallow embedding of the two scripts

    [create_obsidian_index.py] (directory-grouped variant, module [Obsidian])
    and [index_generator.py] (category-grouped variant, module [IndexGen]).

    Modelling conventions, shared by both variants:
    - the platform is POSIX ([PosixPath]): glob patterns and path
      comparisons are case-sensitive and the separator is [/];
    - a Python [str] is a Rocq [string]; names are taken to be ASCII, so
      [str.lower] is the ASCII lower-casing and string comparison is the
      byte-wise lexicographic one;
    - a relative path is the list of its components ([Path.parts]);
    - the file system under the scan root is a finite tree of regular
      files and directories (no symbolic links, no permission failures
      while walking); the order of a directory's entries is the order in
      which [os.scandir] reports them;
    - [sorted] and [list.sort] are stable sorts, so their result is the
      unique stable ordering of the input: they are embedded as a stable
      insertion sort;
    - a [dict] is an association list in insertion order. *)

From Stdlib Require Import List String Ascii Bool Arith Lia ZArith NArith.
From Stdlib Require Import Permutation Sorted DecimalString.
Import ListNotations.
Local Open Scope string_scope.
Local Open Scope list_scope.

(** ** Python's [str] methods *)

Module Py.

Definition quote : ascii := "034"%char.
Definition apostrophe : ascii := "039"%char.
Definition char (c : ascii) : string := String c EmptyString.
Definition triple (c : ascii) : string := String c (String c (String c EmptyString)).

(** [str.lower], ASCII range. *)
Definition lower_char (c : ascii) : ascii :=
  let n := nat_of_ascii c in
  if ((65 <=? n) && (n <=? 90))%nat then ascii_of_nat (n + 32) else c.

Fixpoint lower (s : string) : string :=
  match s with
  | EmptyString => EmptyString
  | String c s' => String (lower_char c) (lower s')
  end.

Definition startswith (s pre : string) : bool := prefix pre s.

Fixpoint rev_string (s : string) : string :=
  match s with
  | EmptyString => EmptyString
  | String c s' => rev_string s' ++ char c
  end.

Definition endswith (s suf : string) : bool :=
  prefix (rev_string suf) (rev_string s).

(** [sub in s] *)
Definition contains (sub s : string) : bool :=
  match index 0 sub s with Some _ => true | None => false end.

(** [str.isspace] on one ASCII character: tab, line feed, vertical tab,
    form feed, carriage return, the separators 28 to 31 and the space. *)
Definition isspace (c : ascii) : bool :=
  let n := nat_of_ascii c in
  (((9 <=? n) && (n <=? 13)) || ((28 <=? n) && (n <=? 32)))%nat.

Definition mem_char (c : ascii) (cs : string) : bool :=
  existsb (Ascii.eqb c) (list_ascii_of_string cs).

(** [str.lstrip]: drop the leading characters that satisfy [p]. *)
Fixpoint lstrip_by (p : ascii -> bool) (s : string) : string :=
  match s with
  | EmptyString => EmptyString
  | String c s' => if p c then lstrip_by p s' else s
  end.

Definition strip_by (p : ascii -> bool) (s : string) : string :=
  rev_string (lstrip_by p (rev_string (lstrip_by p s))).

(** [s.strip()] *)
Definition strip (s : string) : string := strip_by isspace s.

(** [s.strip(chars)]: [chars] is a set of characters, not a substring. *)
Definition strip_chars (s chars : string) : string :=
  strip_by (fun c => mem_char c chars) s.

(** [sep.join(ls)] *)
Definition join (sep : string) (ls : list string) : string := concat sep ls.

Fixpoint map_chars (f : ascii -> string) (s : string) : string :=
  match s with
  | EmptyString => EmptyString
  | String c s' => f c ++ map_chars f s'
  end.

(** [s.replace(old, new)] where [old] is one character. *)
Definition replace (s : string) (old : ascii) (new : string) : string :=
  map_chars (fun c => if Ascii.eqb c old then new else char c) s.

(** [str(n)] for a non-negative integer. *)
Definition str_nat (n : nat) : string := NilZero.string_of_uint (Nat.to_uint n).

(** Text-mode [readlines] with universal newlines: the text is cut at every
    line feed and carriage return. The terminators are dropped (and a
    carriage return followed by a line feed leaves an empty line): the only
    reader of the lines strips them first and skips empty ones. *)
Fixpoint readlines_from (cur : string) (s : string) : list string :=
  match s with
  | EmptyString => [rev_string cur]
  | String c s' =>
      if Ascii.eqb c "010"%char || Ascii.eqb c "013"%char
      then rev_string cur :: readlines_from EmptyString s'
      else readlines_from (String c cur) s'
  end.

Definition readlines (s : string) : list string := readlines_from EmptyString s.

End Py.

(** ** [pathlib]: relative paths as component lists *)

Definition path := list string.

Module PurePath.

(** Cut a name at its last period: the text before it and the text from it on. *)
Fixpoint rsplit_dot (s : string) : option (string * string) :=
  match s with
  | EmptyString => None
  | String c s' =>
      match rsplit_dot s' with
      | Some (b, e) => Some (String c b, e)
      | None => if Ascii.eqb c "."%char then Some (EmptyString, s) else None
      end
  end.

(** [PurePath.suffix] of a name: from the last period on, unless that period
    is the first or the last character of the name. *)
Definition name_suffix (nm : string) : string :=
  match rsplit_dot nm with
  | Some (b, e) => if ((0 <? String.length b) && (1 <? String.length e))%nat then e else EmptyString
  | None => EmptyString
  end.

(** [PurePath.stem] of a name. *)
Definition name_stem (nm : string) : string :=
  match rsplit_dot nm with
  | Some (b, e) => if ((0 <? String.length b) && (1 <? String.length e))%nat then b else nm
  | None => nm
  end.

(** [p.name] *)
Definition name (p : path) : string := last p EmptyString.

(** [p.suffix] and [p.stem] *)
Definition suffix (p : path) : string := name_suffix (name p).
Definition stem (p : path) : string := name_stem (name p).

(** [p.parent] *)
Definition parent (p : path) : path := removelast p.

(** [p.with_suffix('')] *)
Definition without_suffix (p : path) : path :=
  match p with
  | [] => []
  | _ => parent p ++ [stem p]
  end.

(** [str(p)]: the empty relative path prints as a period. *)
Definition str (p : path) : string :=
  match p with
  | [] => "."
  | _ => Py.join "/" p
  end.

(** The order of [PurePosixPath]: component lists compared
    lexicographically, components compared as strings. *)
Fixpoint leb (p q : path) : bool :=
  match p, q with
  | [], _ => true
  | _ :: _, [] => false
  | a :: p', b :: q' =>
      match String.compare a b with
      | Lt => true
      | Gt => false
      | Eq => leb p' q'
      end
  end.

End PurePath.

(** ** The file system under the scan root *)

(** What [open(..., 'r')] followed by [readlines] meets: a text, or a
    failure (permissions, decoding, input/output error). *)
Inductive content :=
| Unreadable
| Text (data : string).

#[local] Unset Elimination Schemes.
Inductive node :=
| File (name : string) (body : content)
| Dir (name : string) (entries : list node).

#[local] Set Elimination Schemes.

Definition node_name (n : node) : string :=
  match n with File nm _ => nm | Dir nm _ => nm end.

Definition is_file (n : node) : bool :=
  match n with File _ _ => true | Dir _ _ => false end.

(** What the root path designates. *)
Inductive root_state :=
| Missing
| NotADirectory
| Directory (entries : list node).

(** A path met by the walk, relative to the root, with the node it names. *)
Record item := Item { rel : path; target : node }.

(** [root_path.rglob(pattern)] for a pattern without separators: the
    matching entries of a directory in listing order, then the same for each
    of its sub-directories in turn, recursively. Names that begin with a
    period get no special treatment. *)
Section Walk.
Variable matches : string -> bool.

Definition select (d : path) (es : list node) : list item :=
  map (fun e => Item (d ++ [node_name e]) e)
      (filter (fun e => matches (node_name e)) es).

Fixpoint descend (d : path) (n : node) : list item :=
  match n with
  | File _ _ => []
  | Dir nm es =>
      select (d ++ [nm]) es ++ flat_map (descend (d ++ [nm])) es
  end.

Definition walk (d : path) (es : list node) : list item :=
  select d es ++ flat_map (descend d) es.

Definition rglob (r : root_state) : list item :=
  match r with
  | Directory es => walk [] es
  | _ => []
  end.
End Walk.

(** The node a relative path names, if any. *)
Fixpoint lookup (es : list node) (p : path) : option node :=
  match p with
  | [] => None
  | nm :: p' =>
      match find (fun e => String.eqb (node_name e) nm) es with
      | None => None
      | Some e =>
          match p', e with
          | [], _ => Some e
          | _, Dir _ es' => lookup es' p'
          | _, File _ _ => None
          end
      end
  end.

(** Induction on trees. *)
Section NodeInduction.
Variable P : node -> Prop.
Hypothesis P_File : forall nm b, P (File nm b).
Hypothesis P_Dir : forall nm es, Forall P es -> P (Dir nm es).

Fixpoint node_ind (n : node) : P n :=
  match n with
  | File nm b => P_File nm b
  | Dir nm es =>
      P_Dir nm es
        ((fix all (l : list node) : Forall P l :=
            match l with
            | [] => Forall_nil P
            | e :: l' => Forall_cons e (node_ind e) (all l')
            end) es)
  end.
End NodeInduction.

(** [names es p n]: under a directory with entries [es], the relative path
    [p] designates the node [n]. *)
Inductive names : list node -> path -> node -> Prop :=
| names_entry es e : In e es -> names es [node_name e] e
| names_under es nm sub p n :
    In (Dir nm sub) es -> names sub p n -> names es (nm :: p) n.




(** ** [sorted] with a key, and [dict] *)

Section Sorted.
Context {A K : Type}.
Variable le : K -> K -> bool.
Variable key : A -> K.

(** [x] goes before the first element whose key is not smaller: among
    equal keys the element met first in the input stays first. *)
Fixpoint insert (x : A) (l : list A) : list A :=
  match l with
  | [] => [x]
  | y :: l' => if le (key x) (key y) then x :: l else y :: insert x l'
  end.

Fixpoint sorted (l : list A) : list A :=
  match l with
  | [] => []
  | x :: l' => insert x (sorted l')
  end.

End Sorted.

Section Dict.
Context {V : Type}.

Definition dict := list (string * V).

Definition keys (d : dict) : list string := map fst d.
Definition values (d : dict) : list V := map snd d.

Fixpoint get (d : dict) (k : string) : option V :=
  match d with
  | [] => None
  | (k', v) :: d' => if String.eqb k' k then Some v else get d' k
  end.
End Dict.
Arguments dict V : clear implicits.

(** [d[k].append(v)] on a [defaultdict(list)]: a new key goes last. *)
Fixpoint append_at {A : Type} (d : dict (list A)) (k : string) (v : A) : dict (list A) :=
  match d with
  | [] => [(k, [v])]
  | (k', vs) :: d' =>
      if String.eqb k' k then (k', vs ++ [v]) :: d' else (k', vs) :: append_at d' k v
  end.

(** [d[k]] on a [defaultdict(list)] *)
Definition item_at {A : Type} (d : dict (list A)) (k : string) : list A :=
  match get d k with Some vs => vs | None => [] end.

(** ** The document under construction *)

(** The scripts collect the document as a list of text lines. Each line is
    kept with its text as the script formats it, and with what it stands
    for: the header of a group's section, the list line of a file, or
    anything else (titles, statistics, table of contents, boilerplate). *)
Inductive line :=
| Plain (text : string)
| Heading (group : string) (text : string)
| Entry (file : path) (text : string).

Definition show (l : line) : string :=
  match l with
  | Plain t => t
  | Heading _ t => t
  | Entry _ t => t
  end.

Definition blank : line := Plain EmptyString.
Definition newline : string := Py.char "010".

(** The text that is written to the output file. *)
Definition render (content : list line) : string := Py.join newline (map show content).

(** The files listed by the lines that follow, up to the next group header. *)
Fixpoint entries_until_heading (doc : list line) : list path :=
  match doc with
  | [] => []
  | Heading _ _ :: _ => []
  | Entry f _ :: rest => f :: entries_until_heading rest
  | Plain _ :: rest => entries_until_heading rest
  end.

(** The group sections of a document, in order, each with its files in order. *)
Fixpoint sections (doc : list line) : list (string * list path) :=
  match doc with
  | [] => []
  | Heading g _ :: rest => (g, entries_until_heading rest) :: sections rest
  | _ :: rest => sections rest
  end.

(** The files listed in a document, in order. *)
Fixpoint listed (doc : list line) : list path :=
  match doc with
  | [] => []
  | Entry f _ :: rest => f :: listed rest
  | _ :: rest => listed rest
  end.

Definition no_heading (l : line) : bool :=
  match l with Heading _ _ => false | _ => true end.

(** ** Effects: console, file system, exceptions *)

Inductive event :=
| Stdout (text : string)
| Stderr (text : string)
| Traverse
| WriteFile (name : string) (data : string).

Inductive exn :=
| SystemExit (code : Z)
| FileNotFoundError
| NotADirectoryError
| IsADirectoryError.

(** [SystemExit] is not an [Exception]. *)
Definition is_Exception (e : exn) : bool :=
  match e with SystemExit _ => false | _ => true end.

Record run (A : Type) := Run { trace : list event; world : root_state; result : exn + A }.
Arguments Run {A}.
Arguments trace {A}.
Arguments world {A}.
Arguments result {A}.

Definition M (A : Type) := root_state -> run A.

Definition ret {A} (a : A) : M A := fun w => Run [] w (inr a).

Definition bind {A B} (m : M A) (k : A -> M B) : M B :=
  fun w =>
    let r := m w in
    match result r with
    | inl e => Run (trace r) (world r) (inl e)
    | inr a => let r' := k a (world r) in
               Run (trace r ++ trace r') (world r') (result r')
    end.

Declare Scope py_scope.
Delimit Scope py_scope with py.
Notation "x <- m ;; k" := (bind m (fun x => k))
  (at level 61, m at next level, right associativity) : py_scope.
Notation "m ;; k" := (bind m (fun _ => k))
  (at level 61, right associativity) : py_scope.

Definition emit (e : event) : M unit := fun w => Run [e] w (inr tt).
Definition print (s : string) : M unit := emit (Stdout s).
Definition eprint (s : string) : M unit := emit (Stderr s).
Definition raise {A} (e : exn) : M A := fun w => Run [] w (inl e).
Definition sys_exit {A} (code : Z) : M A := raise (SystemExit code).
Definition get_world : M root_state := fun w => Run [] w (inr w).

(** [try: body  except Exception as e: handler e] *)
Definition try_except {A} (body : M A) (handler : exn -> M A) : M A :=
  fun w =>
    let r := body w in
    match result r with
    | inl e =>
        if is_Exception e
        then let r' := handler e (world r) in
             Run (trace r ++ trace r') (world r') (result r')
        else r
    | inr _ => r
    end.

(** A directory's entries after a file of the given name is created or
    truncated and written. *)
Fixpoint write_entry (es : list node) (nm data : string) : list node :=
  match es with
  | [] => [File nm (Text data)]
  | e :: es' =>
      if String.eqb (node_name e) nm then File nm (Text data) :: es'
      else e :: write_entry es' nm data
  end.

Definition names_directory (es : list node) (nm : string) : bool :=
  existsb (fun e => String.eqb (node_name e) nm && negb (is_file e)) es.

(** [with open(root_path / name, 'w') as f: f.write(data)], for a name of
    one component. *)
Definition open_write (nm data : string) : M unit :=
  fun w =>
    match w with
    | Missing => Run [] w (inl FileNotFoundError)
    | NotADirectory => Run [] w (inl NotADirectoryError)
    | Directory es =>
        if names_directory es nm then Run [] w (inl IsADirectoryError)
        else Run [WriteFile nm data] (Directory (write_entry es nm data)) (inr tt)
    end.

(** The exit status of the process: an uncaught exception other than
    [SystemExit] ends it with status 1. *)
Definition exit_code {A} (r : run A) : Z :=
  match result r with
  | inr _ => 0
  | inl (SystemExit c) => c
  | inl _ => 1
  end.

Local Open Scope py_scope.

(** ** create_obsidian_index.py: the directory-grouped variant *)

Module Obsidian.

(** The pattern of [rglob("*.md")]. *)
Definition is_md (nm : string) : bool := Py.endswith nm ".md".

(** The body of the loop of [scan_markdown_files]. Paths are kept relative
    to the root: [relative_to] cannot fail on what [rglob] yields. *)
Definition scan_step (md_files : dict (list path)) (md_file : item) : dict (list path) :=
  if String.eqb (Py.lower (PurePath.name (rel md_file))) "index.md" then md_files
  else
    let rel_path := rel md_file in
    let parent_dir :=
      if negb (String.eqb (PurePath.str (PurePath.parent rel_path)) ".")
      then PurePath.str (PurePath.parent rel_path) else "Root" in
    append_at md_files parent_dir rel_path.

Definition scan_markdown_files (r : root_state) : dict (list path) :=
  fold_left scan_step (rglob is_md r) [].

Definition create_obsidian_link (rel_path : path) : string :=
  let display_name := PurePath.stem rel_path in
  let link_path := PurePath.str (PurePath.without_suffix rel_path) in
  ("[[" ++ link_path ++ "|" ++ display_name ++ "]]")%string.

(** The sort key of a directory: [(x != "Root", x.lower())]. *)
Definition dir_key (x : string) : bool * string :=
  (negb (String.eqb x "Root"), Py.lower x).

(** The order of Python on pairs of a Boolean and a string. *)
Definition pair_leb (a b : bool * string) : bool :=
  match fst a, fst b with
  | false, true => true
  | true, false => false
  | _, _ => String.leb (snd a) (snd b)
  end.

Definition sorted_dirs (md_files : dict (list path)) : list string :=
  sorted pair_leb dir_key (keys md_files).

Definition file_key (x : path) : string := Py.lower (PurePath.name x).

Definition anchor (directory : string) : string :=
  Py.replace (Py.replace (Py.replace (Py.lower directory) " " "-") "/" "-") "." EmptyString.

Definition toc_line (directory : string) : line :=
  let dir_display :=
    if String.eqb directory "Root" then "📁 Root Directory" else ("📁 " ++ directory)%string in
  Plain ("- [" ++ dir_display ++ "](#" ++ anchor directory ++ ")").

Definition section (md_files : dict (list path)) (directory : string) : list line :=
  let files := item_at md_files directory in
  let dir_display := if String.eqb directory "Root" then "Root Directory" else directory in
  let sorted_files := sorted String.leb file_key files in
  [ Heading directory ("## " ++ dir_display); blank;
    Plain ("*" ++ Py.str_nat (List.length files) ++ " file(s)*"); blank ]
  ++ map (fun file_path => Entry file_path ("- " ++ create_obsidian_link file_path)) sorted_files
  ++ [ blank ].

Definition total_files (md_files : dict (list path)) : nat :=
  list_sum (map (@List.length path) (values md_files)).

(** [generate_index_content]; [now] is the formatted time of the run. *)
Definition generate_index_content (now : string) (md_files : dict (list path)) : list line :=
  let total_dirs := List.length md_files in
  [ Plain "# Obsidian Notes Index"; blank;
    Plain ("*Generated on: " ++ now ++ "*"); blank;
    Plain "## Statistics"; blank;
    Plain ("- **Total Files**: " ++ Py.str_nat (total_files md_files));
    Plain ("- **Total Directories**: " ++ Py.str_nat total_dirs);
    blank;
    Plain "## Table of Contents"; blank ]
  ++ map toc_line (sorted_dirs md_files)
  ++ [ blank; Plain "---"; blank ]
  ++ flat_map (section md_files) (sorted_dirs md_files)
  ++ [ Plain "---"; blank;
       Plain "*This index was automatically generated. To regenerate, run `python create_obsidian_index.py`*";
       blank ].

Definition is_dir (r : root_state) : bool :=
  match r with Directory _ => true | _ => false end.

Definition scan : M (dict (list path)) :=
  emit Traverse ;; w <- get_world ;; ret (scan_markdown_files w).

(** [main]; [root_dir] is the argument (or the working directory) and
    [root_path] its resolved form, both as they are printed. *)
Definition main (now root_dir root_path : string) : M unit :=
  w <- get_world ;;
  if negb (is_dir w) then
    print ("Error: Directory '" ++ root_dir ++ "' does not exist.") ;;
    sys_exit 1
  else
    print ("Scanning for markdown files in: " ++ root_path) ;;
    md_files <- scan ;;
    match md_files with
    | [] =>
        print "No markdown files found (excluding index.md)." ;;
        sys_exit 0
    | _ =>
        print ("Found " ++ Py.str_nat (total_files md_files) ++ " markdown file(s) in "
               ++ Py.str_nat (List.length md_files) ++ " director(y/ies).") ;;
        let index_content : string := render (generate_index_content now md_files) in
        open_write "index.md" index_content ;;
        print ("✓ Index created successfully: " ++ root_path ++ "/index.md")
    end.

(** The lines of the document of a run on the tree [r]. *)
Definition document (now : string) (r : root_state) : list line :=
  generate_index_content now (scan_markdown_files r).

(** The files of a section, as the script orders them. *)
Definition section_files (md_files : dict (list path)) (directory : string) : list path :=
  sorted String.leb file_key (item_at md_files directory).

(** What the scan keeps of the walk. *)
Definition kept (it : item) : bool :=
  negb (String.eqb (Py.lower (PurePath.name (rel it))) "index.md").


(** The rule by which the directory-grouped variant leaves a path out. *)
Definition excluded (p : path) : bool :=
  negb (is_md (PurePath.name p))
  || String.eqb (Py.lower (PurePath.name p)) "index.md".

End Obsidian.

(** ** index_generator.py: the category-grouped variant *)

Module IndexGen.

Definition default_ignores : list string :=
  [ ".git"; "__pycache__"; ".pytest_cache"; "venv"; "env";
    ".vscode"; ".idea"; "node_modules"; ".DS_Store"; "index.md" ].

Definition mem (x : string) (l : list string) : bool := existsb (String.eqb x) l.

Definition should_ignore (p : path) (ignore_patterns : list string) : bool :=
  let all_ignores := default_ignores ++ ignore_patterns in
  existsb (fun part => mem part all_ignores || Py.startswith part ".") p.

Record files_by_type := ByType {
  python_scripts : list path;
  markdown_files : list path;
  other_files : list path
}.

Definition other_suffixes : list string :=
  [ ".txt"; ".json"; ".yaml"; ".yml"; ".toml"; ".cfg"; ".ini" ].

(** The body of the loop of [scan_directory]; [should_ignore] is called
    without additional patterns. *)
Definition scan_step (acc : files_by_type) (it : item) : files_by_type :=
  if is_file (target it) then
    let rel_path := rel it in
    if should_ignore rel_path [] then acc
    else if String.eqb (PurePath.suffix rel_path) ".py" then
      ByType (python_scripts acc ++ [rel_path]) (markdown_files acc) (other_files acc)
    else if String.eqb (PurePath.suffix rel_path) ".md" then
      ByType (python_scripts acc) (markdown_files acc ++ [rel_path]) (other_files acc)
    else if mem (PurePath.suffix rel_path) other_suffixes then
      ByType (python_scripts acc) (markdown_files acc) (other_files acc ++ [rel_path])
    else acc
  else acc.

(** [list.sort] on paths. *)
Definition sort_paths (l : list path) : list path :=
  sorted PurePath.leb (fun p => p) l.

Definition scan_directory (r : root_state) : files_by_type :=
  let found := fold_left scan_step (rglob (fun _ => true) r) (ByType [] [] []) in
  ByType (sort_paths (python_scripts found))
         (sort_paths (markdown_files found))
         (sort_paths (other_files found)).

Definition nonempty (s : string) : bool := negb (String.eqb s EmptyString).

Definition has_triple_quote (s : string) : bool :=
  Py.contains (Py.triple Py.quote) s || Py.contains (Py.triple Py.apostrophe) s.

(** The loop over the lines of [get_file_description]. *)
Fixpoint first_docstring_line (in_docstring : bool) (lines : list string) : string :=
  match lines with
  | [] => EmptyString
  | line :: rest =>
      let stripped := Py.strip line in
      if has_triple_quote stripped then
        if negb in_docstring then
          let content :=
            Py.strip (Py.strip_chars (Py.strip_chars stripped (Py.triple Py.quote))
                                     (Py.triple Py.apostrophe)) in
          if nonempty content then content else first_docstring_line true rest
        else EmptyString
      else if in_docstring then
        if nonempty stripped then stripped else first_docstring_line in_docstring rest
      else first_docstring_line in_docstring rest
  end.

(** [get_file_description]: any failure to open or read is swallowed. *)
Definition get_file_description (r : root_state) (file_path : path) : string :=
  if String.eqb (PurePath.suffix file_path) ".py" then
    match r with
    | Directory es =>
        match lookup es file_path with
        | Some (File _ (Text data)) => first_docstring_line false (Py.readlines data)
        | _ => EmptyString
        end
    | _ => EmptyString
    end
  else EmptyString.

Definition link (p : path) : string :=
  ("- [" ++ PurePath.str p ++ "](" ++ PurePath.str p ++ ")")%string.

Definition script_line (r : root_state) (script : path) : line :=
  let description := get_file_description r script in
  if nonempty description
  then Entry script (link script ++ " - " ++ description)
  else Entry script (link script).

Definition group_section (group title : string) (lines : list line) : list line :=
  match lines with
  | [] => []
  | _ => [ Heading group ("## " ++ title); blank ] ++ lines ++ [ blank ]
  end.

(** The lines collected by [generate_index]. *)
Definition index_content (now : string) (r : root_state) (found : files_by_type) : list line :=
  [ Plain "# Utility Tools Index"; blank;
    Plain ("*Generated on: " ++ now ++ "*"); blank;
    Plain "This index provides easy navigation to all utility tools in this repository.";
    blank ]
  ++ group_section "python_scripts" "Python Scripts"
       (map (script_line r) (python_scripts found))
  ++ group_section "markdown_files" "Documentation"
       (map (fun md_file => Entry md_file (link md_file)) (markdown_files found))
  ++ group_section "other_files" "Configuration Files"
       (map (fun other_file => Entry other_file (link other_file)) (other_files found))
  ++ [ Plain "---"; blank;
       Plain "## How to Use"; blank;
       Plain "Each tool in this repository is designed to be self-contained and easy to use.";
       Plain "Check individual tool documentation for specific usage instructions.";
       blank;
       Plain "### Regenerating This Index"; blank;
       Plain "To regenerate this index after adding new tools:"; blank;
       Plain "```bash";
       Plain "python index_generator.py";
       Plain "```";
       blank ].

Definition scan : M files_by_type :=
  emit Traverse ;; w <- get_world ;; ret (scan_directory w).

(** [generate_index]; [output_file] is a file name of one component. *)
Definition generate_index (now root_path output_file : string) : M unit :=
  print ("Scanning directory: " ++ root_path) ;;
  found <- scan ;;
  w <- get_world ;;
  let content := index_content now w found in
  open_write output_file (render content) ;;
  print ("✓ Index generated successfully: " ++ root_path ++ "/" ++ output_file) ;;
  print ("  - " ++ Py.str_nat (List.length (python_scripts found)) ++ " Python scripts") ;;
  print ("  - " ++ Py.str_nat (List.length (markdown_files found)) ++ " Markdown files") ;;
  print ("  - " ++ Py.str_nat (List.length (other_files found)) ++ " Configuration files").

(** [str(e)] for the failures of [open]. *)
Definition message (e : exn) (output_path : string) : string :=
  match e with
  | FileNotFoundError => "[Errno 2] No such file or directory: '" ++ output_path ++ "'"
  | NotADirectoryError => "[Errno 20] Not a directory: '" ++ output_path ++ "'"
  | IsADirectoryError => "[Errno 21] Is a directory: '" ++ output_path ++ "'"
  | SystemExit c => EmptyString
  end.

(** [main], after the arguments are parsed: [root_path] is the resolved
    [--directory], [output_file] the [--output] name. *)
Definition main (now root_path output_file : string) : M unit :=
  try_except
    (generate_index now root_path output_file)
    (fun e =>
       eprint ("Error: " ++ message e (root_path ++ "/" ++ output_file)) ;;
       sys_exit 1).

(** The lines of the document of a run on the tree [r]. *)
Definition document (now : string) (r : root_state) : list line :=
  index_content now r (scan_directory r).

Inductive category := Script | Documentation | Configuration.

(** The category the scan gives to a path it meets, if it keeps it. *)
Definition classify (it : item) : option category :=
  if is_file (target it) then
    if should_ignore (rel it) [] then None
    else if String.eqb (PurePath.suffix (rel it)) ".py" then Some Script
    else if String.eqb (PurePath.suffix (rel it)) ".md" then Some Documentation
    else if mem (PurePath.suffix (rel it)) other_suffixes then Some Configuration
    else None
  else None.

Definition in_category (c : category) (it : item) : bool :=
  match classify it, c with
  | Some Script, Script => true
  | Some Documentation, Documentation => true
  | Some Configuration, Configuration => true
  | _, _ => false
  end.

Definition included (it : item) : bool :=
  match classify it with Some _ => true | None => false end.

Definition of_category (c : category) (l : list item) : list path :=
  map rel (filter (in_category c) l).

(** The dictionary [files_by_type], as a grouping. *)
Definition grouping (found : files_by_type) : dict (list path) :=
  [ ("python_scripts", python_scripts found);
    ("markdown_files", markdown_files found);
    ("other_files", other_files found) ].

Definition nonempty_group (g : string * list path) : bool :=
  match snd g with [] => false | _ => true end.

(** The rules by which the category-grouped variant leaves a file out. *)
Definition excluded (p : path) : bool :=
  should_ignore p []
  || negb (mem (PurePath.suffix p) (".py" :: ".md" :: other_suffixes)).

End IndexGen.

(** ** Vocabulary of the claims *)


(** A path with a component that begins with a period. *)
Definition hidden (p : path) : bool :=
  existsb (fun part => Py.startswith part ".") p.

(** The writes of a run. *)
Definition writes (r : run unit) : list event :=
  filter (fun e => match e with WriteFile _ _ => true | _ => false end) (trace r).


(** The tree of the specification's example. *)
Definition example_tree : list node :=
  [ Dir "a" [File "x.md" (Text "x")];
    Dir "b" [File "y.md" (Text "y")];
    Dir ".git" [File "z.md" (Text "z")] ].







Definition triple_quote : string := Py.triple Py.quote.
Definition quoted (s : string) : string := (Py.char Py.quote ++ s ++ Py.char Py.quote)%string.

(** A script whose docstring opens with the line [Say "hi"]. *)
Definition say_hi_script : string :=
  (triple_quote ++ "Say " ++ quoted "hi" ++ newline
   ++ "and more." ++ newline
   ++ triple_quote ++ newline
   ++ "print(1)" ++ newline)%string.

(** The description of a lone [script.py] with the given text. *)
Definition described (src : string) : string :=
  IndexGen.get_file_description (Directory [File "script.py" (Text src)]) ["script.py"].

(** ** Vocabulary of the further properties *)

(** The group key that [scan_markdown_files] gives to a path. *)
Definition obsidian_group_of (p : path) : string :=
  if negb (String.eqb (PurePath.str (PurePath.parent p)) ".")
  then PurePath.str (PurePath.parent p) else "Root".

(** The lines of the section of a group with the given files, as
    [generate_index_content] lays them out. *)
Definition obsidian_block (sec : string * list path) : list line :=
  [ Heading (fst sec)
      ("## " ++ (if String.eqb (fst sec) "Root" then "Root Directory" else fst sec));
    blank;
    Plain ("*" ++ Py.str_nat (List.length (snd sec)) ++ " file(s)*");
    blank ]
  ++ map (fun f => Entry f ("- " ++ Obsidian.create_obsidian_link f)) (snd sec)
  ++ [ blank ].

(** The title of a section of the category-grouped document. *)
Definition indexgen_title (group : string) : string :=
  if String.eqb group "python_scripts" then "Python Scripts"
  else if String.eqb group "markdown_files" then "Documentation"
  else "Configuration Files".

(** The lines of a section of the category-grouped document with the given
    files: only the scripts get a description after their link. *)
Definition indexgen_block (r : root_state) (sec : string * list path) : list line :=
  [ Heading (fst sec) ("## " ++ indexgen_title (fst sec)); blank ]
  ++ map (fun f => if String.eqb (fst sec) "python_scripts"
                   then IndexGen.script_line r f
                   else Entry f (IndexGen.link f)) (snd sec)
  ++ [ blank ].

(** The key of [files_by_type] under which [scan_directory] files a path. *)
Definition indexgen_group_of (p : path) : string :=
  if String.eqb (PurePath.suffix p) ".py" then "python_scripts"
  else if String.eqb (PurePath.suffix p) ".md" then "markdown_files"
  else "other_files".

(** A group of the scan: not empty, and of files of one parent directory. *)
Definition well_grouped (kv : string * list path) : Prop :=
  snd kv <> [] /\ Forall (fun p => obsidian_group_of p = fst kv) (snd kv).

(** A name without a path separator. *)
Definition no_slash (nm : string) : Prop :=
  forall a b, nm <> (a ++ "/" ++ b)%string.


(** The test of the loop on a line: a triple quote in the stripped line. *)
Definition holds_triple_quote (line : string) : bool :=
  IndexGen.has_triple_quote (Py.strip line).


(** * Properties *)

(** ** Sorting *)

Section SortedFacts.
Context {A K : Type}.
Variable le : K -> K -> bool.
Variable key : A -> K.

Lemma insert_perm (x : A) (l : list A) : Permutation (insert le key x l) (x :: l).
Proof.
  induction l as [|y l IH]; simpl; [reflexivity|].
  destruct (le (key x) (key y)); [reflexivity|].
  rewrite IH. apply perm_swap.
Qed.

Lemma sorted_perm (l : list A) : Permutation (sorted le key l) l.
Proof.
  induction l as [|x l IH]; simpl; [constructor|].
  rewrite insert_perm. now constructor.
Qed.

Lemma sorted_In (l : list A) (x : A) : In x (sorted le key l) <-> In x l.
Proof.
  split; apply Permutation_in; [|symmetry]; apply sorted_perm.
Qed.

Hypothesis le_total : forall a b, le a b = true \/ le b a = true.


End SortedFacts.

(** ** The orders used by the scripts are total *)


Lemma path_leb_total (p q : path) : PurePath.leb p q = true \/ PurePath.leb q p = true.
Proof.
  revert q. induction p as [|a p IH]; intros [|b q]; simpl; auto.
  rewrite (String.compare_antisym b a).
  destruct (String.compare a b); simpl; auto.
Qed.

(** ** Documents *)

Lemma listed_app (a b : list line) : listed (a ++ b) = listed a ++ listed b.
Proof.
  induction a as [|[t|g t|f t] a IH]; simpl; auto. now rewrite IH.
Qed.

Lemma listed_entries {A : Type} (file : A -> path) (text : A -> string) (l : list A) :
  listed (map (fun x => Entry (file x) (text x)) l) = map file l.
Proof. induction l; simpl; congruence. Qed.

Lemma listed_plain {A : Type} (text : A -> string) (l : list A) :
  listed (map (fun x => Plain (text x)) l) = [].
Proof. induction l; simpl; auto. Qed.

Lemma sections_skip (a b : list line) :
  forallb no_heading a = true -> sections (a ++ b) = sections b.
Proof.
  induction a as [|[t|g t|f t] a IH]; simpl; auto; discriminate.
Qed.

Lemma entries_until_heading_app (a b : list line) :
  forallb no_heading a = true ->
  entries_until_heading (a ++ b) = listed a ++ entries_until_heading b.
Proof.
  induction a as [|[t|g t|f t] a IH]; simpl; intros H; auto; try discriminate.
  now rewrite IH.
Qed.

Lemma no_heading_entries {A : Type} (file : A -> path) (text : A -> string) (l : list A) :
  forallb no_heading (map (fun x => Entry (file x) (text x)) l) = true.
Proof. induction l; simpl; auto. Qed.

Lemma no_heading_plain {A : Type} (text : A -> string) (l : list A) :
  forallb no_heading (map (fun x => Plain (text x)) l) = true.
Proof. induction l; simpl; auto. Qed.

(** ** The walk *)


Section WalkFacts.
Variable matches : string -> bool.

Lemma walk_descend (d : path) (nm : string) (es : list node) :
  descend matches d (Dir nm es) = walk matches (d ++ [nm]) es.
Proof. reflexivity. Qed.

Lemma in_select (d : path) (es : list node) (it : item) :
  In it (select matches d es) <->
  exists e, In e es /\ matches (node_name e) = true /\ it = Item (d ++ [node_name e]) e.
Proof.
  unfold select. rewrite in_map_iff. split.
  - intros [e [<- He]]. apply filter_In in He as [? ?]. now exists e.
  - intros [e [? [? ->]]]. exists e. split; [reflexivity|]. now apply filter_In.
Qed.

(** Every node under the root whose name matches is met by the walk. *)
Lemma walk_complete (es : list node) (p : path) (n : node) :
  names es p n -> matches (node_name n) = true ->
  forall d, In (Item (d ++ p) n) (walk matches d es).
Proof.
  induction 1 as [es e He|es nm sub p n He Hn IH]; intros Hm d; unfold walk.
  - apply in_or_app. left. apply in_select. now exists e.
  - apply in_or_app. right. apply in_flat_map. exists (Dir nm sub).
    split; [exact He|]. rewrite walk_descend.
    replace (d ++ nm :: p) with ((d ++ [nm]) ++ p) by now rewrite <- app_assoc.
    now apply IH.
Qed.

(** The walk meets only nodes under the root whose names match. *)
Lemma descend_sound (n : node) :
  forall d it, In it (descend matches d n) ->
  exists nm sub p, n = Dir nm sub /\ rel it = d ++ nm :: p /\
                   names sub p (target it) /\ matches (node_name (target it)) = true.
Proof.
  induction n as [nm b|nm es IH] using node_ind; intros d it Hin; [contradiction|].
  exists nm, es. simpl in Hin. apply in_app_or in Hin as [Hin|Hin].
  - apply in_select in Hin as [e [He [Hm ->]]]. exists [node_name e]. simpl.
    rewrite <- app_assoc. repeat split; auto. now constructor.
  - apply in_flat_map in Hin as [e [He Hin]].
    rewrite Forall_forall in IH.
    destruct (IH e He _ _ Hin) as [nm' [sub [p [-> [Hrel [Hn Hm]]]]]].
    exists (nm' :: p). rewrite Hrel, <- app_assoc. repeat split; auto.
    now apply names_under with (sub := sub).
Qed.

Lemma walk_sound (es : list node) (d : path) (it : item) :
  In it (walk matches d es) ->
  exists p, rel it = d ++ p /\ names es p (target it) /\
            matches (node_name (target it)) = true.
Proof.
  unfold walk. intros Hin. apply in_app_or in Hin as [Hin|Hin].
  - apply in_select in Hin as [e [He [Hm ->]]]. exists [node_name e]. simpl.
    repeat split; auto. now constructor.
  - apply in_flat_map in Hin as [e [He Hin]].
    destruct (descend_sound e _ _ Hin) as [nm [sub [p [-> [Hrel [Hn Hm]]]]]].
    exists (nm :: p). repeat split; auto. now apply names_under with (sub := sub).
Qed.
End WalkFacts.

Lemma names_nonempty (es : list node) (p : path) (n : node) : names es p n -> p <> [].
Proof. destruct 1; discriminate. Qed.

Section WalkNoDup.
Variable matches : string -> bool.






End WalkNoDup.

(** ** Sections of a document *)

Lemma listed_sections (doc : list line) :
  listed doc = entries_until_heading doc ++ flat_map snd (sections doc).
Proof.
  induction doc as [|[t|g t|f t] doc IH]; simpl; auto. now rewrite IH.
Qed.

Lemma sections_group (g t : string) (body tail : list line) :
  forallb no_heading body = true ->
  entries_until_heading tail = [] ->
  sections (Heading g t :: body ++ tail) = (g, listed body) :: sections tail.
Proof.
  intros Hb Ht. simpl.
  rewrite entries_until_heading_app, sections_skip, Ht, app_nil_r by assumption.
  reflexivity.
Qed.

Lemma flat_map_snd_map {A B C : Type} (f : A -> B) (g : A -> list C) (l : list A) :
  flat_map snd (map (fun x => (f x, g x)) l) = flat_map g l.
Proof. induction l; simpl; congruence. Qed.

Lemma Permutation_flat_map_l {A B : Type} (f : A -> list B) (l l' : list A) :
  Permutation l l' -> Permutation (flat_map f l) (flat_map f l').
Proof.
  induction 1; simpl; auto.
  - now apply Permutation_app_head.
  - rewrite !app_assoc. apply Permutation_app_tail, Permutation_app_comm.
  - etransitivity; eauto.
Qed.

Lemma Permutation_flat_map_pointwise {A B : Type} (f g : A -> list B) (l : list A) :
  (forall x, Permutation (f x) (g x)) -> Permutation (flat_map f l) (flat_map g l).
Proof.
  intros H. induction l; simpl; auto. now apply Permutation_app.
Qed.

Lemma flat_map_ext_on {A B : Type} (f g : A -> list B) (l : list A) :
  (forall x, In x l -> f x = g x) -> flat_map f l = flat_map g l.
Proof.
  induction l as [|a l IH]; simpl; intros H; auto.
  rewrite (H a), IH; auto.
Qed.

(** ** Dictionaries *)

Section DictFacts.
Context {A : Type}.

Lemma append_at_keys (d : dict (list A)) (k : string) (v : A) :
  keys (append_at d k v) = if existsb (String.eqb k) (keys d) then keys d else keys d ++ [k].
Proof.
  induction d as [|[k' vs] d IH]; simpl; auto.
  rewrite (String.eqb_sym k k').
  destruct (String.eqb k' k) eqn:E; simpl; auto.
  rewrite IH. now destruct (existsb (String.eqb k) (keys d)).
Qed.

Lemma append_at_keys_NoDup (d : dict (list A)) (k : string) (v : A) :
  NoDup (keys d) -> NoDup (keys (append_at d k v)).
Proof.
  intros H. rewrite append_at_keys.
  destruct (existsb (String.eqb k) (keys d)) eqn:E; auto.
  apply NoDup_app; auto.
  - repeat constructor. intros [].
  - intros a Ha [<-|[]].
    assert (existsb (String.eqb k) (keys d) = true); [|congruence].
    apply existsb_exists. exists k. split; [exact Ha|apply String.eqb_refl].
Qed.

Lemma append_at_values (d : dict (list A)) (k : string) (v : A) :
  Permutation (flat_map snd (append_at d k v)) (flat_map snd d ++ [v]).
Proof.
  induction d as [|[k' vs] d IH]; simpl; auto.
  destruct (String.eqb k' k); simpl.
  - rewrite <- !app_assoc. apply Permutation_app_head.
    apply Permutation_app_comm.
  - rewrite IH. now rewrite app_assoc.
Qed.

Lemma get_not_key (d : dict (list A)) (k : string) :
  ~ In k (keys d) -> get d k = None.
Proof.
  induction d as [|[k' vs] d IH]; simpl; auto. intros H.
  destruct (String.eqb_spec k' k); [tauto|]. apply IH. tauto.
Qed.

(** Reading every key in turn yields every stored value once. *)
Lemma item_at_keys (d : dict (list A)) :
  NoDup (keys d) -> flat_map (item_at d) (keys d) = flat_map snd d.
Proof.
  induction d as [|[k vs] d IH]; simpl; auto. intros H.
  inversion H as [|? ? Hnot Hrest]; subst.
  unfold item_at at 1. simpl. rewrite String.eqb_refl. f_equal.
  rewrite <- IH by assumption.
  apply flat_map_ext_on. intros k' Hk'. unfold item_at. simpl.
  destruct (String.eqb_spec k k'); [subst; tauto|reflexivity].
Qed.
End DictFacts.

(** ** The directory-grouped variant *)

Module ObsidianFacts.
Import Obsidian.

Lemma scan_step_keys_NoDup (d : dict (list path)) (it : item) :
  NoDup (keys d) -> NoDup (keys (scan_step d it)).
Proof.
  intros H. unfold scan_step.
  destruct (String.eqb _ "index.md"); auto. now apply append_at_keys_NoDup.
Qed.

Lemma scan_keys_NoDup (r : root_state) : NoDup (keys (scan_markdown_files r)).
Proof.
  unfold scan_markdown_files.
  assert (H : NoDup (keys (@nil (string * list path)))) by constructor.
  revert H. generalize (@nil (string * list path)).
  induction (rglob is_md r) as [|it l IH]; simpl; intros d H; auto.
  apply IH. now apply scan_step_keys_NoDup.
Qed.

Lemma scan_fold_values (l : list item) (d : dict (list path)) :
  Permutation (flat_map snd (fold_left scan_step l d))
              (flat_map snd d ++ map rel (filter kept l)).
Proof.
  revert d. induction l as [|it l IH]; intros d; simpl.
  - now rewrite app_nil_r.
  - rewrite IH. unfold scan_step, kept.
    destruct (String.eqb _ "index.md"); simpl; auto.
    rewrite append_at_values, <- app_assoc. reflexivity.
Qed.

(** The scan stores exactly the kept paths of the walk. *)
Lemma scan_values (r : root_state) :
  Permutation (flat_map snd (scan_markdown_files r))
              (map rel (filter kept (rglob is_md r))).
Proof. unfold scan_markdown_files. now rewrite scan_fold_values. Qed.

Lemma section_shape (md_files : dict (list path)) (directory : string) :
  exists t body,
    section md_files directory = Heading directory t :: body /\
    forallb no_heading body = true /\
    listed body = section_files md_files directory.
Proof.
  unfold section. eexists. eexists. split; [reflexivity|]. split.
  - simpl. rewrite forallb_app, no_heading_entries. reflexivity.
  - simpl. rewrite listed_app, listed_entries, map_id. simpl. apply app_nil_r.
Qed.

Lemma sections_of_sections (md_files : dict (list path)) (dirs : list string) (tail : list line) :
  forallb no_heading tail = true -> listed tail = [] ->
  sections (flat_map (section md_files) dirs ++ tail)
  = map (fun d => (d, section_files md_files d)) dirs
  /\ entries_until_heading (flat_map (section md_files) dirs ++ tail) = [].
Proof.
  intros Ht Hl. induction dirs as [|d dirs [IH1 IH2]].
  - simpl. split.
    + rewrite <- (app_nil_r tail). now rewrite sections_skip.
    + rewrite <- (app_nil_r tail). now rewrite entries_until_heading_app, Hl.
  - destruct (section_shape md_files d) as [t [body [Hs [Hb Hf]]]].
    cbn [flat_map map]. rewrite Hs, <- app_assoc, <- app_comm_cons.
    split; [|reflexivity].
    rewrite sections_group by assumption. now rewrite Hf, IH1.
Qed.

(** The group sections of the document: one per directory, in the order
    of [sorted_dirs], each with its files in the order of the inner sort. *)
Lemma obsidian_sections_content (now : string) (md_files : dict (list path)) :
  sections (generate_index_content now md_files)
  = map (fun d => (d, section_files md_files d)) (sorted_dirs md_files)
  /\ entries_until_heading (generate_index_content now md_files) = [].
Proof.
  unfold generate_index_content.
  set (tail := [Plain "---"; blank; Plain _; blank]).
  destruct (sections_of_sections md_files (sorted_dirs md_files) tail) as [H1 H2];
    [reflexivity|reflexivity|].
  unfold toc_line. split.
  - rewrite sections_skip by reflexivity.
    rewrite sections_skip by apply no_heading_plain.
    rewrite sections_skip by reflexivity. exact H1.
  - rewrite entries_until_heading_app by reflexivity.
    rewrite entries_until_heading_app by apply no_heading_plain.
    rewrite entries_until_heading_app by reflexivity.
    rewrite listed_plain, H2. reflexivity.
Qed.

Lemma obsidian_listed_content (now : string) (md_files : dict (list path)) :
  listed (generate_index_content now md_files)
  = flat_map (section_files md_files) (sorted_dirs md_files).
Proof.
  rewrite listed_sections.
  destruct (obsidian_sections_content now md_files) as [-> ->].
  simpl. apply flat_map_snd_map.
Qed.

(** The document lists exactly the kept paths of the walk, each as often
    as the walk meets it. *)
Lemma obsidian_listed_document (now : string) (r : root_state) :
  Permutation (listed (document now r)) (map rel (filter kept (rglob is_md r))).
Proof.
  unfold document. rewrite obsidian_listed_content.
  rewrite <- scan_values, <- (item_at_keys _ (scan_keys_NoDup r)).
  etransitivity.
  - apply Permutation_flat_map_pointwise. intros d. apply sorted_perm.
  - apply Permutation_flat_map_l. apply sorted_perm.
Qed.

(** *** The order of the sections *)







End ObsidianFacts.

(** ** The category-grouped variant *)

Module IndexGenFacts.
Import IndexGen.

Lemma scan_step_lists (acc : files_by_type) (it : item) :
  scan_step acc it
  = ByType (python_scripts acc ++ of_category Script [it])
           (markdown_files acc ++ of_category Documentation [it])
           (other_files acc ++ of_category Configuration [it]).
Proof.
  destruct acc as [py md ot].
  unfold scan_step, of_category, in_category, classify. cbn [filter].
  destruct (is_file (target it)), (should_ignore (rel it) []),
    (String.eqb (PurePath.suffix (rel it)) ".py"),
    (String.eqb (PurePath.suffix (rel it)) ".md"),
    (mem (PurePath.suffix (rel it)) other_suffixes);
    simpl; rewrite ?app_nil_r; reflexivity.
Qed.

Lemma of_category_cons (c : category) (it : item) (l : list item) :
  of_category c (it :: l) = of_category c [it] ++ of_category c l.
Proof.
  unfold of_category. cbn [filter]. destruct (in_category c it); reflexivity.
Qed.

Lemma scan_fold (l : list item) (acc : files_by_type) :
  fold_left scan_step l acc
  = ByType (python_scripts acc ++ of_category Script l)
           (markdown_files acc ++ of_category Documentation l)
           (other_files acc ++ of_category Configuration l).
Proof.
  revert acc. induction l as [|it l IH]; intros acc.
  - destruct acc. unfold of_category. simpl. now rewrite !app_nil_r.
  - cbn [fold_left]. rewrite IH, scan_step_lists. cbn [python_scripts markdown_files other_files].
    rewrite !(of_category_cons _ it l), !app_assoc. reflexivity.
Qed.

(** The three lists of the scan: the paths of each category, sorted. *)
Lemma scan_directory_lists (r : root_state) :
  scan_directory r
  = ByType (sort_paths (of_category Script (rglob (fun _ => true) r)))
           (sort_paths (of_category Documentation (rglob (fun _ => true) r)))
           (sort_paths (of_category Configuration (rglob (fun _ => true) r))).
Proof. unfold scan_directory. now rewrite scan_fold. Qed.

Lemma categories_partition (l : list item) :
  Permutation (of_category Script l ++ of_category Documentation l ++ of_category Configuration l)
              (map rel (filter included l)).
Proof.
  unfold of_category, in_category, included.
  induction l as [|it l IH]; simpl; auto.
  destruct (classify it) as [[| |]|]; simpl; auto.
  - rewrite <- IH. symmetry. apply Permutation_middle.
  - rewrite <- IH, !app_assoc. symmetry. apply Permutation_middle.
Qed.

Lemma group_section_sections (g t : string) (lines tail : list line) :
  forallb no_heading lines = true ->
  entries_until_heading tail = [] ->
  sections (group_section g t lines ++ tail)
  = (match lines with [] => [] | _ => [(g, listed lines)] end) ++ sections tail
  /\ entries_until_heading (group_section g t lines ++ tail) = [].
Proof.
  intros Hl Ht. destruct lines as [|l lines]; [now split|].
  unfold group_section. split; [|reflexivity].
  change (sections (Heading g ("## " ++ t) :: (blank :: (l :: lines) ++ [blank]) ++ tail)
          = (g, listed (l :: lines)) :: sections tail).
  rewrite sections_group; auto.
  - change (blank :: (l :: lines) ++ [blank]) with ([blank] ++ (l :: lines) ++ [blank]).
    rewrite !listed_app. simpl (listed [blank]). now rewrite app_nil_r.
  - change (blank :: (l :: lines) ++ [blank]) with ([blank] ++ (l :: lines) ++ [blank]).
    rewrite !forallb_app, Hl. reflexivity.
Qed.

Lemma listed_group_section (g t : string) (lines : list line) :
  listed (group_section g t lines) = listed lines.
Proof.
  destruct lines as [|l lines]; [reflexivity|].
  unfold group_section. cbn [app listed]. fold (listed ((l :: lines) ++ [blank])).
  rewrite listed_app. simpl. now rewrite app_nil_r.
Qed.

Lemma listed_script_lines (r : root_state) (l : list path) :
  listed (map (script_line r) l) = l.
Proof.
  induction l as [|p l IH]; simpl; auto. unfold script_line at 1.
  destruct (nonempty _); simpl; now rewrite IH.
Qed.

Lemma no_heading_script_lines (r : root_state) (l : list path) :
  forallb no_heading (map (script_line r) l) = true.
Proof.
  induction l as [|p l IH]; simpl; auto. unfold script_line at 1.
  destruct (nonempty _); simpl; exact IH.
Qed.

(** The files listed by the document: scripts, then documentation, then
    configuration files. *)
Lemma indexgen_listed_content (now : string) (r : root_state) (found : files_by_type) :
  listed (index_content now r found)
  = python_scripts found ++ markdown_files found ++ other_files found.
Proof.
  unfold index_content.
  rewrite !listed_app, !listed_group_section, listed_script_lines, !listed_entries, !map_id.
  simpl. now rewrite app_nil_r.
Qed.

(** The group sections of the document: the non-empty categories, in the
    fixed order scripts, documentation, configuration files. *)
Lemma indexgen_sections_content (now : string) (r : root_state) (found : files_by_type) :
  sections (index_content now r found) = filter nonempty_group (grouping found).
Proof.
  unfold index_content. rewrite sections_skip by reflexivity.
  set (tail := Plain "---" :: _).
  assert (Ht : entries_until_heading tail = []) by reflexivity.
  assert (Hs : sections tail = []) by reflexivity.
  destruct (group_section_sections "other_files" "Configuration Files"
              (map (fun f => Entry f (link f)) (other_files found)) tail
              (no_heading_entries _ _ _) Ht) as [S3 E3].
  destruct (group_section_sections "markdown_files" "Documentation"
              (map (fun f => Entry f (link f)) (markdown_files found)) _
              (no_heading_entries _ _ _) E3) as [S2 E2].
  destruct (group_section_sections "python_scripts" "Python Scripts"
              (map (script_line r) (python_scripts found)) _
              (no_heading_script_lines _ _) E2) as [S1 E1].
  rewrite S1, S2, S3, Hs, listed_script_lines, !listed_entries, !map_id.
  unfold grouping, nonempty_group. simpl.
  destruct (python_scripts found), (markdown_files found), (other_files found); reflexivity.
Qed.

Lemma indexgen_listed_document (now : string) (r : root_state) :
  Permutation (listed (document now r))
              (map rel (filter included (rglob (fun _ => true) r))).
Proof.
  unfold document. rewrite indexgen_listed_content, scan_directory_lists. simpl.
  rewrite <- categories_partition. unfold sort_paths.
  repeat apply Permutation_app; apply sorted_perm.
Qed.

End IndexGenFacts.

(** * The claims *)

Lemma names_name (es : list node) (p : path) (n : node) :
  names es p n -> PurePath.name p = node_name n.
Proof.
  unfold PurePath.name. induction 1 as [es e He|es nm sub p n He Hn IH]; [reflexivity|].
  apply names_nonempty in Hn. destruct p; [contradiction|exact IH].
Qed.

Lemma existsb_false_weaken {A : Type} (f g : A -> bool) (l : list A) :
  (forall x, g x = true -> f x = true) -> existsb f l = false -> existsb g l = false.
Proof.
  intros H. induction l as [|a l IH]; simpl; auto.
  intros E. apply orb_false_iff in E as [Ea El].
  rewrite IH by assumption. destruct (g a) eqn:G; auto.
  apply H in G. congruence.
Qed.

Lemma not_ignored_not_hidden (p : path) :
  IndexGen.should_ignore p [] = false -> hidden p = false.
Proof.
  apply existsb_false_weaken. intros part H. rewrite H. apply orb_true_r.
Qed.

Lemma included_not_ignored (it : item) :
  IndexGen.included it = true -> IndexGen.should_ignore (rel it) [] = false.
Proof.
  unfold IndexGen.included, IndexGen.classify.
  destruct (is_file (target it)); [|discriminate].
  destruct (IndexGen.should_ignore (rel it) []); [discriminate|reflexivity].
Qed.

(** What the category-grouped variant lists was met by the walk and kept. *)
Lemma indexgen_listed_inv (now : string) (r : root_state) (p : path) :
  In p (listed (IndexGen.document now r)) ->
  exists it, In it (rglob (fun _ => true) r) /\ rel it = p /\ IndexGen.included it = true.
Proof.
  intros H. apply (Permutation_in _ (IndexGenFacts.indexgen_listed_document now r)) in H.
  apply in_map_iff in H as [it [Hrel Hit]]. apply filter_In in Hit as [Hit Hinc].
  now exists it.
Qed.

(** What the directory-grouped variant lists was met by the walk and kept. *)
Lemma obsidian_listed_inv (now : string) (r : root_state) (p : path) :
  In p (listed (Obsidian.document now r)) ->
  exists it, In it (rglob Obsidian.is_md r) /\ rel it = p /\ Obsidian.kept it = true.
Proof.
  intros H. apply (Permutation_in _ (ObsidianFacts.obsidian_listed_document now r)) in H.
  apply in_map_iff in H as [it [Hrel Hit]]. apply filter_In in Hit as [Hit Hk].
  now exists it.
Qed.

(** The directory-grouped variant lists every path under the root whose
    name ends in [.md] and is not [index.md] in any letter-casing. *)
Lemma obsidian_lists (now : string) (es : list node) (p : path) (n : node) :
  names es p n ->
  Obsidian.is_md (node_name n) = true ->
  Py.lower (node_name n) <> "index.md" ->
  In p (listed (Obsidian.document now (Directory es))).
Proof.
  intros Hn Hm Hi.
  apply (Permutation_in _ (Permutation_sym (ObsidianFacts.obsidian_listed_document now _))).
  apply in_map_iff. exists (Item p n). split; [reflexivity|].
  apply filter_In. split.
  - apply (walk_complete _ _ _ _ Hn Hm []).
  - unfold Obsidian.kept. simpl. rewrite (names_name _ _ _ Hn).
    apply negb_true_iff. now apply String.eqb_neq.
Qed.

(** ** The list lines are the links of their files *)

Lemma obsidian_entries_are_links (now : string) (md_files : dict (list path)) :
  Forall (fun l => match l with
                   | Entry f t => t = ("- " ++ Obsidian.create_obsidian_link f)%string
                   | _ => True
                   end)
         (Obsidian.generate_index_content now md_files).
Proof.
  unfold Obsidian.generate_index_content.
  repeat (apply Forall_app; split); try (repeat constructor).
  - apply Forall_forall. intros l Hl. apply in_map_iff in Hl as [d [<- _]]. exact I.
  - apply Forall_forall. intros l Hl. apply in_flat_map in Hl as [d [_ Hl]].
    unfold Obsidian.section in Hl. apply in_app_or in Hl as [Hl|Hl].
    + repeat (destruct Hl as [<-|Hl]; [exact I|]). contradiction.
    + apply in_app_or in Hl as [Hl|[<-|[]]]; [|exact I].
      apply in_map_iff in Hl as [f [<- _]]. reflexivity.
Qed.

Lemma indexgen_entries_are_links (now : string) (r : root_state) (found : IndexGen.files_by_type) :
  Forall (fun l => match l with
                   | Entry f t =>
                       t = IndexGen.link f \/
                       t = (IndexGen.link f ++ " - " ++ IndexGen.get_file_description r f)%string
                   | _ => True
                   end)
         (IndexGen.index_content now r found).
Proof.
  assert (Hgroup : forall g t lines P,
             Forall P lines -> P blank -> (forall x y, P (Heading x y)) ->
             Forall P (IndexGen.group_section g t lines)).
  { intros g t lines P Hl Hb Hh. unfold IndexGen.group_section.
    destruct lines as [|l lines]; [constructor|].
    constructor; [apply Hh|]. constructor; [exact Hb|].
    apply Forall_app. split; [exact Hl|]. now constructor. }
  unfold IndexGen.index_content.
  repeat (apply Forall_app; split); try (repeat constructor);
    apply Hgroup; try exact I; try (intros; exact I);
    apply Forall_forall; intros l Hl; apply in_map_iff in Hl as [f [<- _]].
  - unfold IndexGen.script_line. destruct (IndexGen.nonempty _); [now right|now left].
  - now left.
  - now left.
Qed.

(** The example of the specification, in both variants. *)
Example example_tree_by_directory :
  sections (Obsidian.document "2024-01-01 00:00:00" (Directory example_tree))
  = [ (".git", [[".git"; "z.md"]]); ("a", [["a"; "x.md"]]); ("b", [["b"; "y.md"]]) ].
Proof. vm_compute. reflexivity. Qed.

Example example_tree_by_category :
  sections (IndexGen.document "2024-01-01 00:00:00" (Directory example_tree))
  = [ ("markdown_files", [["a"; "x.md"]; ["b"; "y.md"]]) ].
Proof. vm_compute. reflexivity. Qed.

(** ** Hidden names and the name of the output *)

(** C1, as stated, fails for the directory-grouped variant: on the
    example tree its document lists the file under [.git]. *)
Lemma C1_directory_variant_lists_hidden :
  hidden [".git"; "z.md"] = true /\
  In [".git"; "z.md"] (listed (Obsidian.document "2024-01-01 00:00:00" (Directory example_tree))).
Proof. split; [reflexivity|]. vm_compute. tauto. Qed.

(** C1, amended: the category-grouped variant never lists a path with a
    component that begins with a period; the directory-grouped variant has
    no such rule, it lists every path under the root whose name ends in
    [.md] other than [index.md] in any letter-casing, hidden or not. *)
Theorem C1_hidden_components (now : string) (r : root_state) (es : list node) :
  Forall (fun p => hidden p = false) (listed (IndexGen.document now r))
  /\ (forall p n,
        names es p n ->
        Obsidian.is_md (node_name n) = true ->
        Py.lower (node_name n) <> "index.md" ->
        In p (listed (Obsidian.document now (Directory es)))).
Proof.
  split.
  - apply Forall_forall. intros p Hp.
    apply indexgen_listed_inv in Hp as [it [_ [<- Hinc]]].
    now apply not_ignored_not_hidden, included_not_ignored.
  - intros p n. apply obsidian_lists.
Qed.

Lemma C1_hidden_components_witness :
  Forall (fun p => hidden p = false)
         (listed (IndexGen.document "2024-01-01 00:00:00" (Directory example_tree)))
  /\ In [".git"; "z.md"]
        (listed (Obsidian.document "2024-01-01 00:00:00" (Directory example_tree))).
Proof.
  destruct (C1_hidden_components "2024-01-01 00:00:00" (Directory example_tree) example_tree)
    as [H1 H2].
  split; [exact H1|].
  apply (H2 [".git"; "z.md"] (File "z.md" (Text "z"))).
  - apply names_under with (sub := [File "z.md" (Text "z")]).
    + simpl. tauto.
    + apply (names_entry _ (File "z.md" (Text "z"))). simpl. tauto.
  - reflexivity.
  - discriminate.
Defined.

(** C10: in the directory-grouped variant a path whose name is [index.md]
    in any letter-casing is dropped by the scan and is not listed. *)
Theorem C10_index_md_any_casing (now : string) (r : root_state) (p : path) :
  Py.lower (PurePath.name p) = "index.md" ->
  ~ In p (flat_map snd (Obsidian.scan_markdown_files r))
  /\ ~ In p (listed (Obsidian.document now r)).
Proof.
  intros Hp.
  assert (Hk : forall it, rel it = p -> Obsidian.kept it = false).
  { intros it <-. unfold Obsidian.kept. now rewrite Hp. }
  split; intros Hin.
  - apply (Permutation_in _ (ObsidianFacts.scan_values r)) in Hin.
    apply in_map_iff in Hin as [it [Hrel Hit]]. apply filter_In in Hit as [_ Hkept].
    rewrite (Hk it Hrel) in Hkept. discriminate.
  - apply obsidian_listed_inv in Hin as [it [_ [Hrel Hkept]]].
    rewrite (Hk it Hrel) in Hkept. discriminate.
Qed.

Lemma C10_index_md_any_casing_witness :
  Py.lower (PurePath.name ["notes"; "INDEX.md"]) = "index.md" /\
  ~ In ["notes"; "INDEX.md"]
       (listed (Obsidian.document "2024-01-01 00:00:00"
                  (Directory [Dir "notes" [File "INDEX.md" (Text "old"); File "a.md" (Text "a")]]))).
Proof.
  split; [reflexivity|].
  apply (C10_index_md_any_casing _ _ ["notes"; "INDEX.md"]). reflexivity.
Defined.

(** ** Runs that find nothing, and roots that are not directories *)







(** ** The output document among the files listed *)

Lemma indexgen_never_lists_index_md (now : string) (r : root_state) (p : path) :
  In "index.md" p -> ~ In p (listed (IndexGen.document now r)).
Proof.
  intros Hp Hin. apply indexgen_listed_inv in Hin as [it [_ [<- Hinc]]].
  apply included_not_ignored in Hinc.
  assert (IndexGen.should_ignore (rel it) [] = true); [|congruence].
  apply existsb_exists. exists "index.md". split; [exact Hp|reflexivity].
Qed.

(** C4 at its failing input: the category-grouped variant run twice with
    [--output out.md]; the second document lists the first one. *)
Lemma C4_custom_output_is_listed :
  let first := IndexGen.main "2024-01-01 00:00:00" "/r" "out.md"
                 (Directory [File "tool.py" (Text "print(1)")]) in
  exit_code first = 0%Z /\
  listed (IndexGen.document "2024-01-02 00:00:00" (world first)) = [["tool.py"]; ["out.md"]].
Proof. split; vm_compute; reflexivity. Qed.

(** ** Order of the sections and of the files in them *)





(** The order of the category-grouped variant compares components, not
    the printed paths: [a/b.md] comes before [a-b.md], while the text
    [a-b.md] is the smaller one. *)
Example category_order_is_by_components :
  sections (IndexGen.document "2024-01-01 00:00:00"
              (Directory [File "a-b.md" (Text "1"); Dir "a" [File "b.md" (Text "2")]]))
  = [("markdown_files", [["a"; "b.md"]; ["a-b.md"]])] /\
  String.ltb (PurePath.str ["a-b.md"]) (PurePath.str ["a"; "b.md"]) = true.
Proof. split; vm_compute; reflexivity. Qed.

(** ** What a run writes *)

(** A successful run of the directory-grouped variant writes the rendered
    document to [index.md]. *)
Lemma obsidian_run_writes_document (now root_dir root_path : string) (es : list node) :
  Obsidian.scan_markdown_files (Directory es) <> [] ->
  names_directory es "index.md" = false ->
  let r := Obsidian.main now root_dir root_path (Directory es) in
  let text := render (Obsidian.document now (Directory es)) in
  writes r = [WriteFile "index.md" text] /\
  world r = Directory (write_entry es "index.md" text) /\
  exit_code r = 0%Z.
Proof.
  intros Hscan Hdir r text. subst r text. unfold Obsidian.document.
  cbv [Obsidian.main Obsidian.scan writes exit_code bind get_world emit print ret
       trace world result Obsidian.is_dir negb app].
  destruct (Obsidian.scan_markdown_files (Directory es)) as [|g gs] eqn:E; [contradiction|].
  cbv [bind open_write print emit trace world result app].
  rewrite Hdir.
  cbv [trace world result app filter]. repeat split.
Qed.

(** A successful run of the category-grouped variant writes the rendered
    document to the output file. *)
Lemma indexgen_run_writes_document (now root_path output_file : string) (es : list node) :
  names_directory es output_file = false ->
  let r := IndexGen.main now root_path output_file (Directory es) in
  let text := render (IndexGen.document now (Directory es)) in
  writes r = [WriteFile output_file text] /\
  world r = Directory (write_entry es output_file text) /\
  exit_code r = 0%Z.
Proof.
  intros Hdir r text. subst r text. unfold IndexGen.document.
  cbv [IndexGen.main IndexGen.generate_index IndexGen.scan try_except writes
       exit_code bind get_world emit print ret open_write
       trace world result app].
  rewrite Hdir.
  cbv [trace world result app filter is_Exception]. repeat split.
Qed.

(** ** Writing the output file does not change what is found *)

Section AfterWrite.
Variable matches : string -> bool.
Variable keep : item -> bool.
Variable nm : string.
Variable data : string.
Hypothesis keep_top : forall n, keep (Item [nm] n) = false.

Lemma select_after_write (es : list node) :
  filter keep (select matches [] (write_entry es nm data))
  = filter keep (select matches [] es).
Proof.
  unfold select. induction es as [|e es IH]; simpl in *.
  - destruct (matches nm); simpl; auto. now rewrite keep_top.
  - destruct (String.eqb_spec (node_name e) nm) as [Hn|Hn]; simpl.
    + rewrite Hn. destruct (matches nm); simpl; rewrite ?Hn, ?keep_top; reflexivity.
    + destruct (matches (node_name e)); simpl; rewrite IH; reflexivity.
Qed.

Lemma below_after_write (es : list node) :
  names_directory es nm = false ->
  flat_map (descend matches []) (write_entry es nm data)
  = flat_map (descend matches []) es.
Proof.
  unfold names_directory. induction es as [|e es IH]; simpl; intros H; auto.
  apply orb_false_iff in H as [He Hes].
  destruct (String.eqb (node_name e) nm); simpl.
  - destruct e; [reflexivity|discriminate].
  - now rewrite IH.
Qed.

Lemma walk_after_write (es : list node) :
  names_directory es nm = false ->
  filter keep (walk matches [] (write_entry es nm data))
  = filter keep (walk matches [] es).
Proof.
  intros H. unfold walk.
  now rewrite !filter_app, select_after_write, below_after_write.
Qed.
End AfterWrite.

Lemma obsidian_scan_kept (l : list item) (d : dict (list path)) :
  fold_left Obsidian.scan_step l d = fold_left Obsidian.scan_step (filter Obsidian.kept l) d.
Proof.
  revert d. induction l as [|it l IH]; intros d; cbn [fold_left filter]; auto.
  destruct (Obsidian.kept it) eqn:E; cbn [fold_left]; [apply IH|].
  rewrite <- IH. f_equal. unfold Obsidian.kept in E. unfold Obsidian.scan_step.
  apply negb_false_iff in E. now rewrite E.
Qed.

(** The directory-grouped variant finds the same after it has written
    its document. *)
Lemma obsidian_scan_after_write (es : list node) (data : string) :
  names_directory es "index.md" = false ->
  Obsidian.scan_markdown_files (Directory (write_entry es "index.md" data))
  = Obsidian.scan_markdown_files (Directory es).
Proof.
  intros H. unfold Obsidian.scan_markdown_files, rglob.
  rewrite obsidian_scan_kept, (obsidian_scan_kept (walk _ _ es)).
  rewrite walk_after_write; auto.
Qed.

Lemma find_after_write (es : list node) (nm data other : string) :
  other <> nm ->
  find (fun e => String.eqb (node_name e) other) (write_entry es nm data)
  = find (fun e => String.eqb (node_name e) other) es.
Proof.
  intros Hne. induction es as [|e es IH]; simpl.
  - destruct (String.eqb_spec nm other); [congruence|reflexivity].
  - destruct (String.eqb_spec (node_name e) nm) as [Hn|Hn]; simpl.
    + rewrite Hn. destruct (String.eqb_spec nm other); [congruence|reflexivity].
    + now rewrite IH.
Qed.

Lemma find_written (es : list node) (nm data : string) :
  names_directory es nm = false ->
  exists body, find (fun e => String.eqb (node_name e) nm) (write_entry es nm data)
               = Some (File nm body)
  /\ (find (fun e => String.eqb (node_name e) nm) es = None \/
      exists body', find (fun e => String.eqb (node_name e) nm) es = Some (File nm body')).
Proof.
  unfold names_directory. induction es as [|e es IH]; simpl; intros H.
  - rewrite String.eqb_refl. eexists. split; [reflexivity|now left].
  - apply orb_false_iff in H as [He Hes].
    destruct (String.eqb_spec (node_name e) nm) as [Hn|Hn]; simpl.
    + rewrite String.eqb_refl. eexists. split; [reflexivity|]. right.
      destruct e as [nm' body'|nm' sub]; [|discriminate]. simpl in Hn. subst. now eexists.
    + destruct (String.eqb_spec (node_name e) nm); [contradiction|]. now apply IH.
Qed.

(** Writing a file at the top of the tree changes no other path. *)
Lemma lookup_after_write (es : list node) (nm data : string) (p : path) :
  names_directory es nm = false -> p <> [nm] ->
  lookup (write_entry es nm data) p = lookup es p.
Proof.
  intros Hdir Hp. destruct p as [|hd p']; [reflexivity|]. simpl.
  destruct (String.eqb_spec hd nm) as [->|Hne].
  - destruct (find_written es nm data Hdir) as [body [-> [-> | [body' ->]]]];
      destruct p'; congruence.
  - now rewrite find_after_write.
Qed.

Section IndexGenAfterWrite.
Variable nm : string.
Variable data : string.
Variable es : list node.
Hypothesis left_out : forall n, IndexGen.included (Item [nm] n) = false.
Hypothesis no_directory : names_directory es nm = false.

Lemma of_category_after_write (c : IndexGen.category) :
  IndexGen.of_category c (walk (fun _ => true) [] (write_entry es nm data))
  = IndexGen.of_category c (walk (fun _ => true) [] es).
Proof.
  unfold IndexGen.of_category. rewrite walk_after_write; auto.
  intros n. specialize (left_out n).
  unfold IndexGen.included in left_out. unfold IndexGen.in_category.
  destruct (IndexGen.classify (Item [nm] n)); [discriminate|now destruct c].
Qed.

Lemma scan_directory_after_write :
  IndexGen.scan_directory (Directory (write_entry es nm data))
  = IndexGen.scan_directory (Directory es).
Proof.
  rewrite !IndexGenFacts.scan_directory_lists. unfold rglob.
  now rewrite !of_category_after_write.
Qed.

Lemma description_after_write (p : path) :
  p <> [nm] ->
  IndexGen.get_file_description (Directory (write_entry es nm data)) p
  = IndexGen.get_file_description (Directory es) p.
Proof.
  intros Hp. unfold IndexGen.get_file_description.
  now rewrite lookup_after_write.
Qed.

(** The category-grouped variant produces the same document after it has
    written one under a name that its rules leave out. *)
Lemma indexgen_document_after_write (now : string) :
  IndexGen.document now (Directory (write_entry es nm data))
  = IndexGen.document now (Directory es).
Proof.
  unfold IndexGen.document. rewrite scan_directory_after_write.
  unfold IndexGen.index_content. do 3 f_equal.
  apply map_ext_in. intros p Hp. unfold IndexGen.script_line.
  rewrite description_after_write; auto.
  intros ->.
  assert (Hin : In [nm] (listed (IndexGen.document now (Directory es)))).
  { unfold IndexGen.document. rewrite IndexGenFacts.indexgen_listed_content.
    apply in_or_app. now left. }
  apply indexgen_listed_inv in Hin as [it [_ [Hrel Hinc]]].
  destruct it as [q n]. simpl in Hrel. subst q. now rewrite left_out in Hinc.
Qed.
End IndexGenAfterWrite.

(** ** Running again *)

(** After a run with the output name [index.md], a second run works on a
    tree that holds the first document, and produces the same document. *)
Lemma rerun_same_document (now1 now2 root_dir root_path : string) (es : list node) :
  names_directory es "index.md" = false ->
  Obsidian.document now2 (world (Obsidian.main now1 root_dir root_path (Directory es)))
  = Obsidian.document now2 (Directory es)
  /\
  IndexGen.document now2 (world (IndexGen.main now1 root_path "index.md" (Directory es)))
  = IndexGen.document now2 (Directory es).
Proof.
  intros Hdir. split.
  - destruct (Obsidian.scan_markdown_files (Directory es)) as [|g gs] eqn:E.
    + replace (world (Obsidian.main now1 root_dir root_path (Directory es)))
        with (Directory es); [reflexivity|].
      cbv [Obsidian.main Obsidian.scan bind get_world emit print ret
           trace world result Obsidian.is_dir negb app].
      rewrite E. reflexivity.
    + destruct (obsidian_run_writes_document now1 root_dir root_path es) as [_ [-> _]];
        [congruence|exact Hdir|].
      unfold Obsidian.document. now rewrite obsidian_scan_after_write.
  - destruct (indexgen_run_writes_document now1 root_path "index.md" es Hdir) as [_ [-> _]].
    apply indexgen_document_after_write; auto.
    intros n. unfold IndexGen.included, IndexGen.classify. cbn [target rel].
    destruct (is_file n); reflexivity.
Qed.

(** ** Determinism *)


(** ** Completeness and uniqueness of the listing *)








(** The category-grouped variant lists every regular file under the root
    that its rules do not leave out. *)
Lemma indexgen_lists (now : string) (es : list node) (p : path) (nm : string) (body : content) :
  names es p (File nm body) ->
  IndexGen.excluded p = false ->
  In p (listed (IndexGen.document now (Directory es))).
Proof.
  intros Hn Hx.
  apply (Permutation_in _ (Permutation_sym (IndexGenFacts.indexgen_listed_document now _))).
  apply in_map_iff. exists (Item p (File nm body)). split; [reflexivity|].
  apply filter_In. split.
  - apply (walk_complete _ _ _ _ Hn eq_refl []).
  - unfold IndexGen.excluded in Hx. apply orb_false_iff in Hx as [Hi Hs].
    apply negb_false_iff in Hs.
    unfold IndexGen.included, IndexGen.classify.
    cbn [target rel is_file]. rewrite Hi.
    unfold IndexGen.mem in Hs. cbn [existsb] in Hs.
    destruct (String.eqb (PurePath.suffix p) ".py"); auto.
    destruct (String.eqb (PurePath.suffix p) ".md"); auto.
    cbn [orb] in Hs. unfold IndexGen.mem. rewrite Hs. reflexivity.
Qed.



(** ** Descriptions of scripts *)

(** C9 at its failing input: the first line of the docstring is
    [Say "hi"], the description is that line without its last character. *)
Lemma C9_description_loses_quote :
  let w := Directory [File "script.py" (Text say_hi_script)] in
  Py.readlines say_hi_script
  = [(triple_quote ++ "Say " ++ quoted "hi")%string; "and more."; triple_quote; "print(1)";
     EmptyString] /\
  IndexGen.get_file_description w ["script.py"] = ("Say " ++ Py.char Py.quote ++ "hi")%string /\
  map show (filter (fun l => match l with Entry _ _ => true | _ => false end)
              (IndexGen.document "2024-01-01 00:00:00" w))
  = [("- [script.py](script.py) - Say " ++ Py.char Py.quote ++ "hi")%string].
Proof. repeat split; vm_compute; reflexivity. Qed.

(** The three layouts of a docstring that starts with [Does a thing.] *)
Example description_one_line :
  described (triple_quote ++ "Does a thing." ++ triple_quote ++ newline ++ "x = 1")%string
  = "Does a thing.".
Proof. vm_compute. reflexivity. Qed.

Example description_inline_open :
  described (triple_quote ++ "Does a thing." ++ newline ++ "More." ++ newline ++ triple_quote)%string
  = "Does a thing.".
Proof. vm_compute. reflexivity. Qed.

Example description_next_line :
  described ("#!/usr/bin/env python3" ++ newline ++ triple_quote ++ newline
             ++ "Does a thing." ++ newline ++ triple_quote)%string
  = "Does a thing.".
Proof. vm_compute. reflexivity. Qed.

(** A file that cannot be read, or is not there, has no description. *)
Lemma description_unreadable (es : list node) (p : path) :
  (forall nm data, lookup es p <> Some (File nm (Text data))) ->
  IndexGen.get_file_description (Directory es) p = EmptyString.
Proof.
  intros H. unfold IndexGen.get_file_description.
  destruct (String.eqb (PurePath.suffix p) ".py"); auto.
  destruct (lookup es p) as [[nm [|data]|nm sub]|] eqn:E; auto.
  exfalso. apply (H nm data). reflexivity.
Qed.

(** The block layout in general: lines without triple quotes, the opening
    delimiter alone on its line, blank lines, then the first content line. *)
Lemma description_block_layout (before blanks rest : list string) (opening first : string) :
  Forall (fun l => IndexGen.has_triple_quote (Py.strip l) = false) before ->
  Py.strip opening = triple_quote ->
  Forall (fun l => Py.strip l = EmptyString) blanks ->
  IndexGen.has_triple_quote (Py.strip first) = false ->
  Py.strip first <> EmptyString ->
  IndexGen.first_docstring_line false (before ++ opening :: blanks ++ first :: rest)
  = Py.strip first.
Proof.
  intros Hb Ho Hk Hf Hn.
  induction Hb as [|l before Hl _ IH]; simpl.
  - rewrite Ho. change (IndexGen.has_triple_quote triple_quote) with true.
    cbv iota. cbn [negb].
    replace (IndexGen.nonempty _) with false by (vm_compute; reflexivity).
    induction Hk as [|l blanks Hl _ IH]; simpl.
    + rewrite Hf. unfold IndexGen.nonempty.
      destruct (String.eqb_spec (Py.strip first) EmptyString); [contradiction|reflexivity].
    + rewrite Hl. change (IndexGen.has_triple_quote EmptyString) with false.
      cbv iota. exact IH.
  - rewrite Hl. exact IH.
Qed.

(** * Further properties of the two scripts *)

(** ** Statistics and layout of the directory-grouped document *)

Lemma length_flat_map_snd {A : Type} (d : dict (list A)) :
  List.length (flat_map snd d) = list_sum (map (@List.length A) (values d)).
Proof.
  induction d as [|[k vs] d IH]; simpl; auto.
  rewrite length_app, IH. reflexivity.
Qed.

Lemma obsidian_counts (now : string) (r : root_state) :
  Obsidian.total_files (Obsidian.scan_markdown_files r)
  = List.length (listed (Obsidian.document now r)) /\
  List.length (Obsidian.scan_markdown_files r)
  = List.length (sections (Obsidian.document now r)).
Proof.
  split.
  - unfold Obsidian.total_files. rewrite <- length_flat_map_snd.
    apply Permutation_length.
    rewrite (ObsidianFacts.obsidian_listed_document now r).
    apply ObsidianFacts.scan_values.
  - unfold Obsidian.document.
    destruct (ObsidianFacts.obsidian_sections_content now (Obsidian.scan_markdown_files r))
      as [-> _].
    rewrite length_map. unfold Obsidian.sorted_dirs.
    rewrite (Permutation_length (sorted_perm _ _ _)). symmetry. apply length_map.
Qed.

(** X1: the totals printed in the statistics block of the directory-grouped
    document are the number of files it lists and the number of its group
    sections. *)
Theorem X1_statistics_match_listing (now : string) (r : root_state) :
  let doc := Obsidian.document now r in
  In (Plain ("- **Total Files**: " ++ Py.str_nat (List.length (listed doc)))) doc /\
  In (Plain ("- **Total Directories**: " ++ Py.str_nat (List.length (sections doc)))) doc.
Proof.
  intros doc. subst doc.
  destruct (obsidian_counts now r) as [<- <-].
  unfold Obsidian.document, Obsidian.generate_index_content.
  split; apply in_or_app; left.
  - do 6 right. left. reflexivity.
  - do 7 right. left. reflexivity.
Qed.

Lemma obsidian_section_block (md_files : dict (list path)) (d : string) :
  Obsidian.section md_files d = obsidian_block (d, Obsidian.section_files md_files d).
Proof.
  unfold Obsidian.section, obsidian_block, Obsidian.section_files. cbn [fst snd].
  now rewrite (Permutation_length (sorted_perm String.leb Obsidian.file_key _)).
Qed.

(** X2: the directory-grouped document is a fixed header, one table of
    contents line per section, then the sections laid out from their own
    files, then a fixed footer: each section's file count is the number of
    files listed under it, and the table of contents names the sections in
    their order. *)
Theorem X2_document_layout (now : string) (r : root_state) :
  let doc := Obsidian.document now r in
  exists header footer,
    doc = header
          ++ map Obsidian.toc_line (map fst (sections doc))
          ++ [ blank; Plain "---"; blank ]
          ++ flat_map obsidian_block (sections doc)
          ++ footer
    /\ sections header = [] /\ listed header = []
    /\ sections footer = [] /\ listed footer = [].
Proof.
  intros doc. subst doc. unfold Obsidian.document.
  destruct (ObsidianFacts.obsidian_sections_content now (Obsidian.scan_markdown_files r))
    as [-> _].
  assert (Hk : forall (f : string -> list path) (l : list string),
             map fst (map (fun d => (d, f d)) l) = l).
  { intros f l. rewrite map_map. apply map_id. }
  rewrite Hk.
  assert (Hb : forall md l,
             flat_map obsidian_block (map (fun d => (d, Obsidian.section_files md d)) l)
             = flat_map (Obsidian.section md) l).
  { intros md l. induction l as [|d l IH]; cbn [flat_map map]; auto.
    now rewrite IH, obsidian_section_block. }
  rewrite Hb. unfold Obsidian.generate_index_content.
  eexists. eexists. split; [reflexivity|]. repeat split.
Qed.

(** ** Groups of the directory-grouped variant *)

Lemma append_at_well_grouped (d : dict (list path)) (p : path) :
  Forall well_grouped d ->
  Forall well_grouped (append_at d (obsidian_group_of p) p).
Proof.
  induction 1 as [|[k vs] d [Hne Hall] Hd IH]; simpl.
  - constructor; [|constructor]. split; simpl; [discriminate|].
    constructor; [reflexivity|constructor].
  - destruct (String.eqb_spec k (obsidian_group_of p)) as [Hk|Hk].
    + constructor; [|exact Hd]. split; simpl.
      * destruct vs; discriminate.
      * apply Forall_app. split; [exact Hall|]. constructor; auto.
    + constructor; [now split|exact IH].
Qed.

Lemma scan_well_grouped (r : root_state) :
  Forall well_grouped (Obsidian.scan_markdown_files r).
Proof.
  unfold Obsidian.scan_markdown_files.
  assert (H : Forall well_grouped (@nil (string * list path))) by constructor.
  revert H. generalize (@nil (string * list path)).
  induction (rglob Obsidian.is_md r) as [|it l IH]; simpl; intros d H; auto.
  apply IH. unfold Obsidian.scan_step.
  destruct (String.eqb _ "index.md"); auto.
  now apply append_at_well_grouped.
Qed.

Lemma get_In {V : Type} (d : dict V) (k : string) (v : V) :
  get d k = Some v -> In (k, v) d.
Proof.
  induction d as [|[k' v'] d IH]; simpl; [discriminate|].
  destruct (String.eqb_spec k' k) as [->|Hk]; intros H.
  - injection H as ->. now left.
  - right. now apply IH.
Qed.

Lemma get_key {V : Type} (d : dict V) (k : string) :
  In k (keys d) -> exists v, get d k = Some v.
Proof.
  induction d as [|[k' v'] d IH]; simpl; [contradiction|].
  intros [->|H].
  - rewrite String.eqb_refl. now eexists.
  - destruct (String.eqb k' k); [now eexists|now apply IH].
Qed.

(** X3: in the directory-grouped document no two sections have the same
    key, every section holds at least one file, and every file stands in
    the section of its parent directory (relative to the root), files
    directly under the root standing in the section "Root". *)
Theorem X3_sections_by_parent_directory (now : string) (r : root_state) :
  NoDup (map fst (sections (Obsidian.document now r))) /\
  Forall (fun sec =>
            snd sec <> [] /\
            Forall (fun p => obsidian_group_of p = fst sec) (snd sec))
         (sections (Obsidian.document now r)).
Proof.
  unfold Obsidian.document.
  destruct (ObsidianFacts.obsidian_sections_content now (Obsidian.scan_markdown_files r))
    as [-> _].
  split.
  { rewrite map_map. cbn [fst]. rewrite map_id. unfold Obsidian.sorted_dirs.
    apply (Permutation_NoDup (Permutation_sym (sorted_perm _ _ _))).
    apply ObsidianFacts.scan_keys_NoDup. }
  apply Forall_forall. intros sec Hsec. apply in_map_iff in Hsec as [d [<- Hd]].
  unfold Obsidian.sorted_dirs in Hd. apply sorted_In in Hd.
  destruct (get_key _ _ Hd) as [vs Hget].
  pose proof (get_In _ _ _ Hget) as Hin.
  pose proof (scan_well_grouped r) as Hall. rewrite Forall_forall in Hall.
  destruct (Hall _ Hin) as [Hne Hgrp]. simpl in Hne, Hgrp.
  unfold Obsidian.section_files, item_at. rewrite Hget. cbn [fst snd]. split.
  - intros E. apply Hne. apply Permutation_nil.
    rewrite <- E. apply sorted_perm.
  - apply Forall_forall. intros p Hp. apply sorted_In in Hp.
    rewrite Forall_forall in Hgrp. now apply Hgrp.
Qed.

(** ** What each variant lists *)

(** X4: the directory-grouped document lists a path exactly when it names
    something under the root, a regular file or a directory alike, whose
    name ends in [.md] and is not [index.md] in any letter-casing. *)
Theorem X4_directory_variant_listing (now : string) (es : list node) (p : path) :
  In p (listed (Obsidian.document now (Directory es))) <->
  exists n, names es p n /\ Obsidian.is_md (node_name n) = true /\
            Py.lower (node_name n) <> "index.md".
Proof.
  split.
  - intros H. apply obsidian_listed_inv in H as [it [Hit [Hrel Hk]]].
    apply walk_sound in Hit as [q [Hq [Hn Hm]]]. simpl in Hq.
    exists (target it). rewrite <- Hrel, Hq. repeat split; auto.
    unfold Obsidian.kept in Hk. apply negb_true_iff, String.eqb_neq in Hk.
    rewrite Hq in Hk. now rewrite (names_name _ _ _ Hn) in Hk.
  - intros [n [Hn [Hm Hi]]]. now apply obsidian_lists with (n := n).
Qed.

Lemma included_inv (it : item) :
  IndexGen.included it = true ->
  is_file (target it) = true /\ IndexGen.excluded (rel it) = false.
Proof.
  unfold IndexGen.included, IndexGen.classify, IndexGen.excluded.
  destruct (is_file (target it)); [|discriminate].
  destruct (IndexGen.should_ignore (rel it) []); [discriminate|].
  unfold IndexGen.mem at 2. cbn [existsb].
  destruct (String.eqb (PurePath.suffix (rel it)) ".py"); [auto|].
  destruct (String.eqb (PurePath.suffix (rel it)) ".md"); [auto|].
  unfold IndexGen.mem.
  destruct (existsb _ IndexGen.other_suffixes); [auto|discriminate].
Qed.

(** X5: the category-grouped document lists a path exactly when it names a
    regular file under the root that [should_ignore] does not reject and
    whose suffix is [.py], [.md] or one of the configuration suffixes. *)
Theorem X5_category_variant_listing (now : string) (es : list node) (p : path) :
  In p (listed (IndexGen.document now (Directory es))) <->
  exists nm body, names es p (File nm body) /\ IndexGen.excluded p = false.
Proof.
  split.
  - intros H. apply indexgen_listed_inv in H as [it [Hit [Hrel Hinc]]].
    apply walk_sound in Hit as [q [Hq [Hn _]]]. simpl in Hq.
    apply included_inv in Hinc as [Hf Hx].
    destruct (target it) as [nm body|nm sub] eqn:E; [|discriminate].
    exists nm, body. rewrite <- Hrel. split; [now rewrite Hq|exact Hx].
  - intros [nm [body [Hn Hx]]]. now apply indexgen_lists with (nm := nm) (body := body).
Qed.

Lemma in_category_group (c : IndexGen.category) (it : item) :
  IndexGen.in_category c it = true ->
  indexgen_group_of (rel it)
  = match c with
    | IndexGen.Script => "python_scripts"
    | IndexGen.Documentation => "markdown_files"
    | IndexGen.Configuration => "other_files"
    end.
Proof.
  unfold IndexGen.in_category, IndexGen.classify, indexgen_group_of.
  destruct (is_file (target it)); [|discriminate].
  destruct (IndexGen.should_ignore (rel it) []); [discriminate|].
  destruct (String.eqb (PurePath.suffix (rel it)) ".py"); [now destruct c|].
  destruct (String.eqb (PurePath.suffix (rel it)) ".md"); [now destruct c|].
  destruct (IndexGen.mem _ IndexGen.other_suffixes); [now destruct c|discriminate].
Qed.

(** X6: in the category-grouped document no section is empty, and a file
    stands under the scripts when its suffix is [.py], under the
    documentation when it is [.md], and under the configuration files
    otherwise. *)
Theorem X6_sections_by_suffix (now : string) (r : root_state) :
  Forall (fun sec =>
            snd sec <> [] /\
            Forall (fun p => indexgen_group_of p = fst sec) (snd sec))
         (sections (IndexGen.document now r)).
Proof.
  unfold IndexGen.document. rewrite IndexGenFacts.indexgen_sections_content.
  apply Forall_forall. intros sec Hsec. apply filter_In in Hsec as [Hsec Hne].
  split.
  - unfold IndexGen.nonempty_group in Hne. destruct (snd sec); [discriminate|discriminate].
  - rewrite IndexGenFacts.scan_directory_lists in Hsec. unfold IndexGen.grouping in Hsec.
    cbn [IndexGen.python_scripts IndexGen.markdown_files IndexGen.other_files] in Hsec.
    assert (Hcat : forall c l p,
               In p (IndexGen.sort_paths (IndexGen.of_category c l)) ->
               exists it, rel it = p /\ IndexGen.in_category c it = true).
    { intros c l p Hp. apply sorted_In in Hp. apply in_map_iff in Hp as [it [Hr Hit]].
      apply filter_In in Hit as [_ Hc]. now exists it. }
    destruct Hsec as [<-|[<-|[<-|[]]]]; cbn [fst snd];
      apply Forall_forall; intros p Hp;
      destruct (Hcat _ _ _ Hp) as [it [<- Hc]];
      now rewrite (in_category_group _ _ Hc).
Qed.

(** ** Layout of the category-grouped document *)

Lemma group_section_block (r : root_state) (g : string) (fs : list path) :
  flat_map (indexgen_block r) (filter IndexGen.nonempty_group [(g, fs)])
  = IndexGen.group_section g (indexgen_title g)
      (map (fun f => if String.eqb g "python_scripts"
                     then IndexGen.script_line r f
                     else Entry f (IndexGen.link f)) fs).
Proof.
  destruct fs as [|f fs]; [reflexivity|].
  cbn [filter IndexGen.nonempty_group snd flat_map]. rewrite app_nil_r. reflexivity.
Qed.

(** X22: the category-grouped document is a fixed header, then one block
    per section, then a fixed footer; a block is the section's title, a
    blank line, one list line per file and a blank line, and only the
    lines of the scripts carry a description after the link. *)
Theorem X22_category_document_layout (now : string) (r : root_state) :
  let doc := IndexGen.document now r in
  exists header footer,
    doc = header ++ flat_map (indexgen_block r) (sections doc) ++ footer
    /\ sections header = [] /\ listed header = []
    /\ sections footer = [] /\ listed footer = [].
Proof.
  intros doc. subst doc. unfold IndexGen.document.
  rewrite IndexGenFacts.indexgen_sections_content.
  set (found := IndexGen.scan_directory r).
  unfold IndexGen.grouping.
  change [("python_scripts", IndexGen.python_scripts found);
          ("markdown_files", IndexGen.markdown_files found);
          ("other_files", IndexGen.other_files found)]
    with ([("python_scripts", IndexGen.python_scripts found)]
          ++ [("markdown_files", IndexGen.markdown_files found)]
          ++ [("other_files", IndexGen.other_files found)]).
  rewrite !filter_app, !flat_map_app, !group_section_block.
  unfold IndexGen.index_content.
  match goal with
  | |- exists header footer, ?h ++ ?g1 ++ ?g2 ++ ?g3 ++ ?f = _ /\ _ => exists h, f
  end.
  split; [|repeat split].
  now rewrite <- !app_assoc.
Qed.

(** ** The ignore rule of the category-grouped variant *)

Lemma mem_In (x : string) (l : list string) : IndexGen.mem x l = true <-> In x l.
Proof.
  unfold IndexGen.mem. rewrite existsb_exists. split.
  - intros [y [Hy E]]. apply String.eqb_eq in E. now subst.
  - intros H. exists x. split; [exact H|apply String.eqb_refl].
Qed.

Lemma should_ignore_true_iff (p : path) (ignore_patterns : list string) :
  IndexGen.should_ignore p ignore_patterns = true <->
  exists part, In part p /\
    (In part IndexGen.default_ignores \/ In part ignore_patterns \/
     Py.startswith part "." = true).
Proof.
  unfold IndexGen.should_ignore. rewrite existsb_exists. split.
  - intros [part [Hin H]]. exists part. split; [exact Hin|].
    apply orb_true_iff in H as [H|H]; [|auto].
    apply mem_In, in_app_or in H. tauto.
  - intros [part [Hin H]]. exists part. split; [exact Hin|].
    apply orb_true_iff. destruct H as [H|[H|H]]; [left|left|now right];
      apply mem_In, in_or_app; auto.
Qed.

(** X7: [should_ignore] rejects a path exactly when one of its components
    is in the default list, is one of the additional patterns, or begins
    with a period; so everything below a rejected directory is rejected. *)
Theorem X7_should_ignore_components (p : path) (ignore_patterns : list string) :
  (IndexGen.should_ignore p ignore_patterns = true <->
   exists part, In part p /\
     (In part IndexGen.default_ignores \/ In part ignore_patterns \/
      Py.startswith part "." = true))
  /\
  (forall below,
     IndexGen.should_ignore p ignore_patterns = true ->
     IndexGen.should_ignore (p ++ below) ignore_patterns = true).
Proof.
  split; [apply should_ignore_true_iff|].
  intros below H. unfold IndexGen.should_ignore in *.
  rewrite existsb_app, H. reflexivity.
Qed.

Lemma X7_should_ignore_components_witness :
  IndexGen.should_ignore ["build"; "lib"] ["build"] = true /\
  IndexGen.should_ignore (["build"; "lib"] ++ ["x.py"]) ["build"] = true.
Proof.
  split; [reflexivity|].
  apply (proj2 (X7_should_ignore_components ["build"; "lib"] ["build"]) ["x.py"]).
  reflexivity.
Defined.

(** X8: the category-grouped document lists no path with a component from
    the default ignore list ([venv], [node_modules], [__pycache__], ...) or
    with a component that begins with a period. *)
Theorem X8_nothing_ignored_is_listed (now : string) (r : root_state) :
  Forall (fun p =>
            Forall (fun part => ~ In part IndexGen.default_ignores /\
                                Py.startswith part "." = false) p)
         (listed (IndexGen.document now r)).
Proof.
  apply Forall_forall. intros p Hp.
  apply indexgen_listed_inv in Hp as [it [_ [<- Hinc]]].
  apply included_not_ignored in Hinc.
  apply Forall_forall. intros part Hpart.
  destruct (Py.startswith part ".") eqn:Hs.
  - exfalso. assert (IndexGen.should_ignore (rel it) [] = true); [|congruence].
    apply should_ignore_true_iff. exists part. auto.
  - split; [|reflexivity]. intros Hd.
    assert (IndexGen.should_ignore (rel it) [] = true); [|congruence].
    apply should_ignore_true_iff. exists part. auto.
Qed.

(** ** Strings: suffixes and reversal *)

Lemma append_assoc (a b c : string) : ((a ++ b) ++ c = a ++ (b ++ c))%string.
Proof. induction a; simpl; congruence. Qed.

Lemma append_empty_r (a : string) : (a ++ EmptyString)%string = a.
Proof. induction a; simpl; congruence. Qed.

Lemma rev_string_app (a b : string) :
  Py.rev_string (a ++ b) = (Py.rev_string b ++ Py.rev_string a)%string.
Proof.
  induction a as [|c a IH]; simpl.
  - now rewrite append_empty_r.
  - now rewrite IH, append_assoc.
Qed.

Lemma rev_string_involutive (a : string) : Py.rev_string (Py.rev_string a) = a.
Proof.
  induction a as [|c a IH]; simpl; auto.
  rewrite rev_string_app, IH. reflexivity.
Qed.

Lemma prefix_iff (p s : string) :
  prefix p s = true <-> exists t, s = (p ++ t)%string.
Proof.
  revert s. induction p as [|c p IH]; intros s.
  - destruct s; simpl; split; auto; intros _; eexists; reflexivity.
  - destruct s as [|d s]; simpl.
    + split; [discriminate|]. intros [t H]. discriminate.
    + destruct (ascii_dec c d) as [->|Hn].
      * rewrite IH. split; intros [t H]; exists t; congruence.
      * split; [discriminate|]. intros [t H]. congruence.
Qed.

(** [str.endswith]: the text ends with the suffix. *)
Lemma endswith_iff (s suf : string) :
  Py.endswith s suf = true <-> exists b, s = (b ++ suf)%string.
Proof.
  unfold Py.endswith. rewrite prefix_iff. split.
  - intros [t H]. exists (Py.rev_string t).
    rewrite <- (rev_string_involutive s), H, rev_string_app.
    now rewrite rev_string_involutive.
  - intros [b ->]. exists (Py.rev_string b). apply rev_string_app.
Qed.

Lemma rsplit_dot_md (b : string) :
  PurePath.rsplit_dot (b ++ ".md") = Some (b, ".md").
Proof.
  induction b as [|c b IH]; [reflexivity|].
  cbn [append PurePath.rsplit_dot]. now rewrite IH.
Qed.

Lemma join_last (l : list string) (x s : string) :
  (Py.join "/" (l ++ [x]) ++ s)%string = Py.join "/" (l ++ [(x ++ s)%string]).
Proof.
  unfold Py.join. induction l as [|a l IH]; [reflexivity|].
  destruct l as [|a' l]; cbn [app concat] in *.
  - now rewrite !append_assoc.
  - rewrite <- IH. now rewrite !append_assoc.
Qed.

Lemma path_split_last (p : path) :
  p <> [] -> p = PurePath.parent p ++ [PurePath.name p].
Proof.
  intros H. unfold PurePath.parent, PurePath.name. now apply app_removelast_last.
Qed.

(** ** Links of the directory-grouped variant *)

(** X9: for a path whose name is a non-empty stem followed by [.md], the
    wiki link is the relative path without that extension, then a bar, then
    the stem: putting [.md] back after the link target gives the path of
    the file. *)
Theorem X9_link_is_path_without_extension (p : path) :
  p <> [] ->
  Obsidian.is_md (PurePath.name p) = true ->
  PurePath.name p <> ".md" ->
  exists target display,
    Obsidian.create_obsidian_link p = ("[[" ++ target ++ "|" ++ display ++ "]]")%string /\
    (target ++ ".md")%string = PurePath.str p /\
    (display ++ ".md")%string = PurePath.name p.
Proof.
  intros Hp Hmd Hne.
  apply endswith_iff in Hmd as [b Hb].
  assert (Hb0 : b <> EmptyString) by (intros ->; auto).
  assert (Hstem : PurePath.stem p = b).
  { unfold PurePath.stem, PurePath.name_stem. rewrite Hb, rsplit_dot_md.
    destruct b; [contradiction|reflexivity]. }
  exists (PurePath.str (PurePath.without_suffix p)), b.
  split; [|split].
  - unfold Obsidian.create_obsidian_link. now rewrite Hstem.
  - unfold PurePath.without_suffix. rewrite Hstem.
    destruct p as [|a p']; [contradiction|].
    rewrite (path_split_last (a :: p') Hp) at 2. rewrite Hb.
    unfold PurePath.str.
    destruct (PurePath.parent (a :: p') ++ [b]) eqn:E1;
      [now destruct (PurePath.parent (a :: p'))|].
    destruct (PurePath.parent (a :: p') ++ [(b ++ ".md")%string]) eqn:E2;
      [now destruct (PurePath.parent (a :: p'))|].
    rewrite <- E1, <- E2. apply join_last.
  - now rewrite Hb.
Qed.

Lemma X9_link_is_path_without_extension_witness :
  PurePath.name ["notes"; "To Do.md"] <> ".md" /\
  exists target display,
    Obsidian.create_obsidian_link ["notes"; "To Do.md"]
    = ("[[" ++ target ++ "|" ++ display ++ "]]")%string /\
    (target ++ ".md")%string = PurePath.str ["notes"; "To Do.md"] /\
    (display ++ ".md")%string = PurePath.name ["notes"; "To Do.md"].
Proof.
  split; [discriminate|].
  apply X9_link_is_path_without_extension; [discriminate|reflexivity|discriminate].
Defined.

(** ** Links of the category-grouped variant *)

Lemma no_slash_tail (c : ascii) (s : string) : no_slash (String c s) -> no_slash s.
Proof. intros H a b E. apply (H (String c a) b). simpl. now rewrite E. Qed.

Lemma split_at_slash (a b x y : string) :
  no_slash a -> no_slash b ->
  (a ++ "/" ++ x)%string = (b ++ "/" ++ y)%string -> a = b /\ x = y.
Proof.
  revert b. induction a as [|c a IH]; intros [|d b] Ha Hb E; simpl in E.
  - injection E as E. auto.
  - injection E as Ec E. exfalso. apply (Hb EmptyString b). now rewrite <- Ec.
  - injection E as Ec E. exfalso. apply (Ha EmptyString a). now rewrite Ec.
  - injection E as Ec E. apply no_slash_tail in Ha, Hb.
    destruct (IH b Ha Hb E) as [-> ->]. now subst.
Qed.

Lemma join_cons (a b : string) (l : list string) :
  Py.join "/" (a :: b :: l) = (a ++ "/" ++ Py.join "/" (b :: l))%string.
Proof. reflexivity. Qed.

(** Printing a path of slash-free components loses nothing. *)
Lemma str_injective (p q : path) :
  p <> [] -> q <> [] -> Forall no_slash p -> Forall no_slash q ->
  PurePath.str p = PurePath.str q -> p = q.
Proof.
  intros Hp Hq Fp Fq. destruct p as [|a p]; [contradiction|].
  destruct q as [|b q]; [contradiction|]. unfold PurePath.str. clear Hp Hq.
  revert b q Fq. induction p as [|a' p IH] in a, Fp |- *; intros b [|b' q] Fq E.
  - change (a = b) in E. now subst.
  - rewrite join_cons in E. change (Py.join "/" [a]) with a in E. exfalso.
    inversion Fp as [|? ? Ha _]; subst. now apply (Ha b (Py.join "/" (b' :: q))).
  - rewrite join_cons in E. change (Py.join "/" [b]) with b in E. exfalso.
    inversion Fq as [|? ? Hb _]; subst. apply (Hb a (Py.join "/" (a' :: p))). now symmetry.
  - rewrite !join_cons in E.
    inversion Fp as [|? ? Ha Fp']; subst. inversion Fq as [|? ? Hb Fq']; subst.
    apply split_at_slash in E as [-> E]; auto.
    now rewrite (IH a' Fp' b' q Fq' E).
Qed.

Lemma length_append (a b : string) :
  String.length (a ++ b) = String.length a + String.length b.
Proof. induction a; simpl; auto. Qed.

Lemma append_same_length (a b x y : string) :
  String.length a = String.length b -> (a ++ x)%string = (b ++ y)%string -> a = b.
Proof.
  revert b. induction a as [|c a IH]; intros [|d b] Hl E; simpl in *; try discriminate; auto.
  injection E as -> E. f_equal. apply IH; auto.
Qed.

(** X10: in the category-grouped variant the link of a file, which is its
    relative path as label and as target, determines the file: two paths
    of slash-free components with the same link are the same path. *)
Theorem X10_links_are_distinct (p q : path) :
  p <> [] -> q <> [] -> Forall no_slash p -> Forall no_slash q ->
  IndexGen.link p = IndexGen.link q -> p = q.
Proof.
  intros Hp Hq Fp Fq E. apply str_injective; auto.
  unfold IndexGen.link in E. simpl in E. injection E as E.
  apply append_same_length in E; auto.
  apply (f_equal String.length) in E.
  rewrite !length_append in E. simpl in E. rewrite !length_append in E. simpl in E. lia.
Qed.

Lemma no_slash_check (nm : string) :
  forallb (fun c => negb (Ascii.eqb c "/")) (list_ascii_of_string nm) = true ->
  no_slash nm.
Proof.
  induction nm as [|c nm IH]; intros H a b E.
  - destruct a; discriminate.
  - simpl in H. apply andb_prop in H as [Hc Hrest]. destruct a as [|d a]; simpl in E.
    + injection E as -> _. discriminate.
    + injection E as _ E. now apply (IH Hrest a b).
Qed.

Lemma X10_links_are_distinct_witness :
  Forall no_slash ["conf"; "s.yaml"] /\
  (IndexGen.link ["conf"; "s.yaml"] = IndexGen.link ["conf"; "s.yaml"] ->
   ["conf"; "s.yaml"] = ["conf"; "s.yaml"]).
Proof.
  assert (H : Forall no_slash ["conf"; "s.yaml"]).
  { repeat constructor; apply no_slash_check; reflexivity. }
  split; [exact H|].
  apply X10_links_are_distinct; [discriminate|discriminate|exact H|exact H].
Defined.

(** ** Descriptions *)

Lemma nonempty_false (s : string) : IndexGen.nonempty s = false <-> s = EmptyString.
Proof.
  unfold IndexGen.nonempty. rewrite negb_false_iff. apply String.eqb_eq.
Qed.


(** Lines without a triple quote before the docstring are passed over. *)
Lemma skip_plain_lines (before rest : list string) :
  forallb (fun l => negb (holds_triple_quote l)) before = true ->
  IndexGen.first_docstring_line false (before ++ rest)
  = IndexGen.first_docstring_line false rest.
Proof.
  induction before as [|l before IH]; simpl; auto. intros H.
  apply andb_prop in H as [Hl Hb]. apply negb_true_iff in Hl.
  unfold holds_triple_quote in Hl. rewrite Hl. auto.
Qed.


(** X11: a script in which no line holds a triple quote has the empty
    description. *)
Theorem X11_no_docstring_no_description (es : list node) (p : path) (nm data : string) :
  lookup es p = Some (File nm (Text data)) ->
  forallb (fun l => negb (holds_triple_quote l)) (Py.readlines data) = true ->
  IndexGen.get_file_description (Directory es) p = EmptyString.
Proof.
  intros Hl Hq. unfold IndexGen.get_file_description. rewrite Hl.
  destruct (String.eqb (PurePath.suffix p) ".py"); [|reflexivity].
  rewrite <- (app_nil_r (Py.readlines data)). now rewrite skip_plain_lines.
Qed.

Lemma X11_no_docstring_no_description_witness :
  IndexGen.get_file_description
    (Directory [Dir "tools" [File "run.py" (Text "import os")]]) ["tools"; "run.py"]
  = EmptyString.
Proof.
  apply (X11_no_docstring_no_description _ _ "run.py" "import os"); reflexivity.
Defined.





(** ** Runs *)






(** ** The output file *)






(** ** Running again *)



(** ** The order of paths, and sorting by it *)

Lemma ascii_compare_lt_trans (a b c : ascii) :
  Ascii.compare a b = Lt -> Ascii.compare b c = Lt -> Ascii.compare a c = Lt.
Proof.
  unfold Ascii.compare. rewrite !N.compare_lt_iff. apply N.lt_trans.
Qed.

Lemma ascii_compare_eq (a b : ascii) : Ascii.compare a b = Eq -> a = b.
Proof. apply Ascii.compare_eq_iff. Qed.

Lemma ascii_compare_refl (a : ascii) : Ascii.compare a a = Eq.
Proof. unfold Ascii.compare. apply N.compare_refl. Qed.

Lemma string_compare_refl (a : string) : String.compare a a = Eq.
Proof.
  induction a as [|x a IH]; simpl; auto. now rewrite ascii_compare_refl.
Qed.

Lemma string_compare_lt_trans (a b c : string) :
  String.compare a b = Lt -> String.compare b c = Lt -> String.compare a c = Lt.
Proof.
  revert b c. induction a as [|x a IH]; intros [|y b] [|z c]; simpl; try congruence.
  destruct (Ascii.compare x y) eqn:Exy; try discriminate;
    destruct (Ascii.compare y z) eqn:Eyz; try discriminate; intros H1 H2.
  - apply ascii_compare_eq in Exy, Eyz. subst.
    rewrite ascii_compare_refl. eauto.
  - apply ascii_compare_eq in Exy. subst. now rewrite Eyz.
  - apply ascii_compare_eq in Eyz. subst. now rewrite Exy.
  - now rewrite (ascii_compare_lt_trans _ _ _ Exy Eyz).
Qed.

Lemma path_leb_trans (p q r : path) :
  PurePath.leb p q = true -> PurePath.leb q r = true -> PurePath.leb p r = true.
Proof.
  revert q r. induction p as [|a p IH]; intros [|b q] [|c r]; simpl; try congruence.
  destruct (String.compare a b) eqn:Eab; try discriminate;
    destruct (String.compare b c) eqn:Ebc; try discriminate; intros H1 H2.
  - apply String.compare_eq_iff in Eab, Ebc. subst.
    rewrite string_compare_refl. eauto.
  - apply String.compare_eq_iff in Eab. subst. now rewrite Ebc.
  - apply String.compare_eq_iff in Ebc. subst. now rewrite Eab.
  - now rewrite (string_compare_lt_trans _ _ _ Eab Ebc).
Qed.

Lemma path_leb_antisym (p q : path) :
  PurePath.leb p q = true -> PurePath.leb q p = true -> p = q.
Proof.
  revert q. induction p as [|a p IH]; intros [|b q]; simpl; try congruence.
  rewrite (String.compare_antisym b a).
  destruct (String.compare a b) eqn:Eab; simpl; try discriminate.
  apply String.compare_eq_iff in Eab. subst. intros H1 H2. f_equal. auto.
Qed.

Section SortCanonical.
Context {A : Type}.
Variable le : A -> A -> bool.
Hypothesis le_total : forall a b, le a b = true \/ le b a = true.
Hypothesis le_trans : forall a b c, le a b = true -> le b c = true -> le a c = true.
Hypothesis le_antisym : forall a b, le a b = true -> le b a = true -> a = b.

Lemma insert_insert (x y : A) (l : list A) :
  insert le (fun a => a) x (insert le (fun a => a) y l)
  = insert le (fun a => a) y (insert le (fun a => a) x l).
Proof.
  assert (Hpair : forall u v, le u v = false -> le v u = true).
  { intros u v H. destruct (le_total u v); congruence. }
  induction l as [|z l IH]; simpl.
  - destruct (le x y) eqn:Exy, (le y x) eqn:Eyx; simpl; rewrite ?Exy, ?Eyx; auto.
    + now rewrite (le_antisym _ _ Exy Eyx).
    + apply Hpair in Exy. congruence.
  - destruct (le y z) eqn:Eyz, (le x z) eqn:Exz; simpl; rewrite ?Eyz, ?Exz.
    + destruct (le x y) eqn:Exy, (le y x) eqn:Eyx; simpl; rewrite ?Exz, ?Eyz; auto.
      * now rewrite (le_antisym _ _ Exy Eyx).
      * apply Hpair in Exy. congruence.
    + destruct (le x y) eqn:Exy; simpl; rewrite ?Exz, ?Eyz; auto.
      rewrite (le_trans _ _ _ Exy Eyz) in Exz. discriminate.
    + destruct (le y x) eqn:Eyx; simpl; rewrite ?Exz, ?Eyz; auto.
      rewrite (le_trans _ _ _ Eyx Exz) in Eyz. discriminate.
    + now rewrite IH.
Qed.

(** On a total order the result of the sort depends on the elements only,
    not on the order in which they come. *)
Lemma sorted_permutation (l l' : list A) :
  Permutation l l' -> sorted le (fun a => a) l = sorted le (fun a => a) l'.
Proof.
  induction 1; simpl; try congruence. apply insert_insert.
Qed.
End SortCanonical.

Lemma sort_paths_permutation (l l' : list path) :
  Permutation l l' -> IndexGen.sort_paths l = IndexGen.sort_paths l'.
Proof.
  apply sorted_permutation.
  - apply path_leb_total.
  - apply path_leb_trans.
  - apply path_leb_antisym.
Qed.

(** X20: what [scan_directory] returns does not depend on the order in
    which the walk reports the files: two walks that report the same paths
    in different orders give the same three sorted lists. *)
Theorem X20_scan_independent_of_walk_order (r1 r2 : root_state) :
  Permutation (rglob (fun _ => true) r1) (rglob (fun _ => true) r2) ->
  IndexGen.scan_directory r1 = IndexGen.scan_directory r2.
Proof.
  intros H. rewrite !IndexGenFacts.scan_directory_lists.
  assert (Hc : forall c,
             Permutation (IndexGen.of_category c (rglob (fun _ => true) r1))
                         (IndexGen.of_category c (rglob (fun _ => true) r2))).
  { intros c. unfold IndexGen.of_category. apply Permutation_map.
    clear - H. induction H; simpl.
    - constructor.
    - destruct (IndexGen.in_category c x); auto.
    - destruct (IndexGen.in_category c x), (IndexGen.in_category c y); auto.
      apply perm_swap.
    - etransitivity; eauto. }
  f_equal; apply sort_paths_permutation, Hc.
Qed.

Lemma X20_scan_independent_of_walk_order_witness :
  IndexGen.scan_directory (Directory [File "b.py" (Text "1"); File "a.py" (Text "2")])
  = IndexGen.scan_directory (Directory [File "a.py" (Text "2"); File "b.py" (Text "1")]).
Proof.
  apply X20_scan_independent_of_walk_order. apply perm_swap.
Defined.

(** ** Anchors of the table of contents *)

Lemma chars_append (a b : string) :
  list_ascii_of_string (a ++ b) = list_ascii_of_string a ++ list_ascii_of_string b.
Proof. induction a; simpl; congruence. Qed.

Lemma in_replace (s : string) (old : ascii) (new : string) (c : ascii) :
  In c (list_ascii_of_string (Py.replace s old new)) ->
  (In c (list_ascii_of_string s) /\ c <> old) \/ In c (list_ascii_of_string new).
Proof.
  unfold Py.replace. induction s as [|d s IH]; simpl; [contradiction|].
  rewrite chars_append. intros H. apply in_app_or in H as [H|H].
  - destruct (Ascii.eqb_spec d old) as [->|Hd]; [now right|].
    simpl in H. destruct H as [<-|[]]. left. auto.
  - destruct (IH H) as [[H1 H2]|H1]; auto.
Qed.

Lemma lower_char_not_upper (c : ascii) :
  ((65 <=? nat_of_ascii (Py.lower_char c)) && (nat_of_ascii (Py.lower_char c) <=? 90))%nat = false.
Proof.
  unfold Py.lower_char.
  destruct ((65 <=? nat_of_ascii c) && (nat_of_ascii c <=? 90))%nat eqn:E; [|exact E].
  apply andb_prop in E as [E1 E2].
  apply Nat.leb_le in E1, E2.
  rewrite nat_ascii_embedding by lia.
  apply andb_false_iff. right. apply Nat.leb_gt. lia.
Qed.

Lemma in_lower (s : string) (c : ascii) :
  In c (list_ascii_of_string (Py.lower s)) ->
  ((65 <=? nat_of_ascii c) && (nat_of_ascii c <=? 90))%nat = false.
Proof.
  induction s as [|d s IH]; simpl; [contradiction|].
  intros [<-|H]; [apply lower_char_not_upper|auto].
Qed.

(** X21: the anchor that a line of the table of contents points to holds
    no space, no slash, no period and no upper-case letter. *)
Theorem X21_anchor_characters (directory : string) :
  Forall (fun c => c <> " "%char /\ c <> "/"%char /\ c <> "."%char /\
                   ((65 <=? nat_of_ascii c) && (nat_of_ascii c <=? 90))%nat = false)
         (list_ascii_of_string (Obsidian.anchor directory)).
Proof.
  apply Forall_forall. intros c Hc. unfold Obsidian.anchor in Hc.
  apply in_replace in Hc as [[Hc Hdot]|[]].
  apply in_replace in Hc as [[Hc Hslash]|Hc].
  - apply in_replace in Hc as [[Hc Hspace]|Hc].
    + repeat split; auto. now apply in_lower in Hc.
    + destruct Hc as [<-|[]]. repeat split; discriminate.
  - destruct Hc as [<-|[]]. repeat split; discriminate.
Qed.
